(** * CyberDL: the download-history store of [historyManager.py]

    A shallow embedding of the data layer of [HistoryManager]: the record
    list, its JSON file, the search filter, pagination and deletion.

    Conventions of the embedding.
    - A Python value that can come out of [json.load] is a [json] term. A
      float is kept as the literal it was read from.
    - A Python [str] is a Rocq [string] holding its UTF-8 bytes, a lone
      surrogate as the three bytes the same scheme gives it. Such a string
      cannot be written to a UTF-8 file; [Utf8.valid] tells.
    - What belongs to the Python runtime and its libraries, and is not
      defined here in full, is a field of the class [Runtime]: [str.lower]
      and [str.strip] on all of Unicode, [==] and [str()] on values other
      than strings, [json.load] and [json.dump], the identity of a file
      behind a path, the argument checks of the Qt items. The laws of the
      class tie each field to a function defined here on the inputs where
      the two are known to agree. Every definition and theorem below is
      stated for an arbitrary runtime.
    - An uncaught Python exception is an explicit outcome that carries the
      state reached when it was raised.
    - Qt widgets are reduced to the data the store writes into them: the
      rows of the table and the visibility of the two optional widgets.
    - Failures of the operating system on a file (permissions, a full disk)
      are not part of the embedding. *)

From Stdlib Require Import ZArith String Ascii List Lia Bool DecimalString.
From stdpp Require Import gmap strings list fin_maps.

Set Warnings "-register-all".

Open Scope string_scope.
Open Scope Z_scope.

(* ===================================================================== *)
(** ** Strings of ASCII characters *)
(* ===================================================================== *)

Module PyStr.

(** [str.isspace] on one ASCII character: TAB, LF, VT, FF, CR, the four
    separators FS GS RS US, and the blank. *)
Definition is_space (c : ascii) : bool :=
  let n := nat_of_ascii c in
  ((9 <=? n) && (n <=? 13) || (28 <=? n) && (n <=? 32))%nat.

Definition is_upper (c : ascii) : bool :=
  let n := nat_of_ascii c in
  ((65 <=? n) && (n <=? 90))%nat.

Definition lower_char (c : ascii) : ascii :=
  if is_upper c then ascii_of_nat (nat_of_ascii c + 32) else c.

(** [s.lower()] as far as the letters A to Z go: every other byte is left
    as it is. On a text of ASCII characters this is [str.lower]. *)
Fixpoint lower_ascii (s : string) : string :=
  match s with
  | EmptyString => EmptyString
  | String c s' => String (lower_char c) (lower_ascii s')
  end.

Fixpoint lstrip_ascii (s : string) : string :=
  match s with
  | EmptyString => EmptyString
  | String c s' => if is_space c then lstrip_ascii s' else s
  end.

Fixpoint rstrip_ascii (s : string) : string :=
  match s with
  | EmptyString => EmptyString
  | String c s' =>
      match rstrip_ascii s' with
      | EmptyString => if is_space c then EmptyString else String c EmptyString
      | r => String c r
      end
  end.

(** [s.strip()] as far as ASCII white space goes. On a text of ASCII
    characters this is [str.strip]. *)
Definition strip_ascii (s : string) : string := lstrip_ascii (rstrip_ascii s).

(** A text of ASCII characters. *)
Fixpoint is_ascii (s : string) : bool :=
  match s with
  | EmptyString => true
  | String c s' => (nat_of_ascii c <? 128)%nat && is_ascii s'
  end.

(** [q in s] for two strings: [q] occurs in [s] as a contiguous block. On
    UTF-8 bytes this is the same as on code points. *)
Fixpoint contains (q s : string) : bool :=
  String.prefix q s ||
  match s with
  | EmptyString => false
  | String _ s' => contains q s'
  end.

(** The truth value of a string: [bool(s)]. *)
Definition truthy (s : string) : bool :=
  match s with EmptyString => false | _ => true end.

(** A string made of ASCII white space only (the empty string included). *)
Fixpoint all_space (s : string) : bool :=
  match s with
  | EmptyString => true
  | String c s' => is_space c && all_space s'
  end.

(** [q] is a substring of [s], as a proposition. *)
Definition substring_of (q s : string) : Prop :=
  exists a b : string, s = a ++ q ++ b.

End PyStr.

(* ===================================================================== *)
(** ** UTF-8 *)
(* ===================================================================== *)

Module Utf8.

(** The states of the decoder between two bytes: at a character boundary,
    or inside a character with one, two or three bytes to come, the first
    of them restricted after the lead bytes E0, ED, F0 and F4. *)
Inductive state : Type :=
| Start | Cont1 | Cont2 | Cont3
| AfterE0 | AfterED | AfterF0 | AfterF4
| Reject.

Definition between (lo hi n : nat) : bool := ((lo <=? n) && (n <=? hi))%nat.

Definition step (q : state) (c : ascii) : state :=
  let n := nat_of_ascii c in
  match q with
  | Start =>
      if (n <? 128)%nat then Start
      else if between 194 223 n then Cont1
      else if (n =? 224)%nat then AfterE0
      else if between 225 236 n || between 238 239 n then Cont2
      else if (n =? 237)%nat then AfterED
      else if (n =? 240)%nat then AfterF0
      else if between 241 243 n then Cont3
      else if (n =? 244)%nat then AfterF4
      else Reject
  | Cont1 => if between 128 191 n then Start else Reject
  | Cont2 => if between 128 191 n then Cont1 else Reject
  | Cont3 => if between 128 191 n then Cont2 else Reject
  | AfterE0 => if between 160 191 n then Cont1 else Reject
  | AfterED => if between 128 159 n then Cont1 else Reject
  | AfterF0 => if between 144 191 n then Cont2 else Reject
  | AfterF4 => if between 128 143 n then Cont2 else Reject
  | Reject => Reject
  end.

Fixpoint run (q : state) (s : string) : state :=
  match s with
  | EmptyString => q
  | String c s' => run (step q c) s'
  end.

(** The bytes are the UTF-8 encoding of a text: what a file opened with
    [encoding="utf-8"] can be read from and written with. A surrogate, an
    overlong form and a code beyond U+10FFFF are refused. *)
Definition valid (s : string) : bool :=
  match run Start s with
  | Start => true
  | _ => false
  end.

End Utf8.

(* ===================================================================== *)
(** ** Python values as they come out of [json.load] *)
(* ===================================================================== *)

Inductive json : Type :=
| JNull
| JBool (b : bool)
| JInt (n : Z)
| JFloat (literal : string)
| JStr (s : string)
| JArr (items : list json)
| JObj (members : list (string * json)).

(** Exceptions the store can let escape. [DictSliceError] is what the
    slice of a dict raises: [TypeError] up to Python 3.11, where a slice
    cannot be hashed, and [KeyError] from Python 3.12 on. *)
Inductive exn : Type :=
| AttributeError
| TypeError
| DictSliceError.

(** The result of evaluating an expression that may raise. *)
Inductive result (A : Type) : Type :=
| Ok (a : A)
| Raise (e : exn).
Arguments Ok {A} a.
Arguments Raise {A} e.

Definition bind {A B : Type} (r : result A) (k : A -> result B) : result B :=
  match r with
  | Ok a => k a
  | Raise e => Raise e
  end.

Notation "'try!' x ':=' r 'in' k" := (bind r (fun x => k))
  (at level 10, x name, r at level 100, k at level 200).

Module Py.

(** Lookup in a [dict] kept in insertion order. *)
Fixpoint dict_get (k : string) (o : list (string * json)) : option json :=
  match o with
  | [] => None
  | (k', v) :: o' => if String.eqb k k' then Some v else dict_get k o'
  end.

(** [d[k] = v] on an insertion-ordered dict: a present key keeps its place. *)
Fixpoint dict_set (k : string) (v : json) (o : list (string * json))
  : list (string * json) :=
  match o with
  | [] => [(k, v)]
  | (k', v') :: o' =>
      if String.eqb k k' then (k, v) :: o' else (k', v') :: dict_set k v o'
  end.

(** [item.get(k, default)]: only a dict has the method. *)
Definition get (item : json) (k : string) (default : json) : result json :=
  match item with
  | JObj o => Ok (match dict_get k o with Some v => v | None => default end)
  | _ => Raise AttributeError
  end.

(** [seq[-n:]] on a list: Python turns the start [-n] into an offset from
    the left. A negative start counts from the end and is clipped at 0; a
    start that is not negative is clipped at the length. [-0] is [0], so
    [seq[-0:]] is the whole list. *)
Definition slice_start (len : nat) (start : Z) : nat :=
  if start <? 0
  then Z.to_nat (Z.max (Z.of_nat len + start) 0)
  else Z.to_nat (Z.min start (Z.of_nat len)).

Definition slice_from {A : Type} (l : list A) (start : Z) : list A :=
  drop (slice_start (length l) start) l.

(** A byte that continues a character. *)
Definition is_continuation (c : ascii) : bool :=
  Utf8.between 128 191 (nat_of_ascii c).

(** The characters of a str, each a str of its own: a byte opens a new
    character unless it continues one. *)
Fixpoint chars (s : string) : list json :=
  match s with
  | EmptyString => []
  | String c s' =>
      match chars s' with
      | JStr (String d t) :: more =>
          if is_continuation d
          then JStr (String c (String d t)) :: more
          else JStr (String c EmptyString) :: JStr (String d t) :: more
      | more => JStr (String c EmptyString) :: more
      end
  end.

(** What [history[-n:][::-1]] slices. A list gives its items, a str its
    characters; a dict takes the slice for a key; any other value cannot
    be subscripted. *)
Definition sequence (v : json) : result (list json) :=
  match v with
  | JArr l => Ok l
  | JStr s => Ok (chars s)
  | JObj _ => Raise DictSliceError
  | _ => Raise TypeError
  end.

(** [len(v)] *)
Definition len (v : json) : result Z :=
  match v with
  | JArr l => Ok (Z.of_nat (length l))
  | JStr s => Ok (Z.of_nat (length (chars s)))
  | JObj o => Ok (Z.of_nat (length o))
  | _ => Raise TypeError
  end.

(** What [for item in v] runs over: the items of a list, the characters
    of a str, the keys of a dict. Nothing else is iterable. *)
Definition iter (v : json) : result (list json) :=
  match v with
  | JArr l => Ok l
  | JStr s => Ok (chars s)
  | JObj o => Ok (map (fun kv => JStr (fst kv)) o)
  | _ => Raise TypeError
  end.

End Py.

(* ===================================================================== *)
(** ** The [json] module of the Python library, on values without floats *)
(* ===================================================================== *)

Module Json.

Definition LF : ascii := ascii_of_nat 10.
Definition CR : ascii := ascii_of_nat 13.
Definition TAB : ascii := ascii_of_nat 9.
Definition BS : ascii := ascii_of_nat 8.
Definition FF : ascii := ascii_of_nat 12.
Definition DQ : ascii := ascii_of_nat 34.
Definition BSL : ascii := ascii_of_nat 92.

(** *** The text of [json.dumps(v, ensure_ascii=False, indent=2)]

    For a float the literal is written as it stands, which need not be the
    [repr] Python writes; the runtime's [json_dump] is tied to this text on
    values without floats only. *)

Definition hex_digit (n : nat) : ascii :=
  if (n <? 10)%nat then ascii_of_nat (48 + n) else ascii_of_nat (87 + n).

(** One character of a string literal. With [ensure_ascii=False] only the
    quote, the backslash and the control characters are escaped. *)
Definition escape_char (c : ascii) : string :=
  let n := nat_of_ascii c in
  if Ascii.eqb c DQ then String BSL (String DQ EmptyString)
  else if Ascii.eqb c BSL then String BSL (String BSL EmptyString)
  else if Ascii.eqb c LF then String BSL "n"
  else if Ascii.eqb c CR then String BSL "r"
  else if Ascii.eqb c TAB then String BSL "t"
  else if Ascii.eqb c BS then String BSL "b"
  else if Ascii.eqb c FF then String BSL "f"
  else if (n <? 32)%nat then
    String BSL (String "u" (String "0" (String "0"
      (String (hex_digit (n / 16)) (String (hex_digit (n mod 16)) EmptyString)))))
  else String c EmptyString.

Fixpoint escape (s : string) : string :=
  match s with
  | EmptyString => EmptyString
  | String c s' => escape_char c ++ escape s'
  end.

Definition quote (s : string) : string :=
  String DQ (escape s ++ String DQ EmptyString).

Fixpoint spaces (n : nat) : string :=
  match n with
  | O => EmptyString
  | S n' => String " " (spaces n')
  end.

(** The line break and indentation written in front of an item at nesting
    level [lvl]. *)
Definition newline_indent (lvl : nat) : string :=
  String LF (spaces (2 * lvl)).

Definition decimal (n : Z) : string :=
  DecimalString.NilZero.string_of_int (Z.to_int n).

Fixpoint encode (lvl : nat) (v : json) {struct v} : string :=
  match v with
  | JNull => "null"
  | JBool true => "true"
  | JBool false => "false"
  | JInt n => decimal n
  | JFloat lit => lit
  | JStr s => quote s
  | JArr [] => "[]"
  | JArr (x :: l) =>
      "[" ++ newline_indent (S lvl) ++ encode (S lvl) x ++
      (fix more (l : list json) : string :=
         match l with
         | [] => EmptyString
         | y :: l' =>
             "," ++ newline_indent (S lvl) ++ encode (S lvl) y ++ more l'
         end) l ++
      newline_indent lvl ++ "]"
  | JObj [] => "{}"
  | JObj ((k, x) :: o) =>
      "{" ++ newline_indent (S lvl) ++ quote k ++ ": " ++ encode (S lvl) x ++
      (fix more (o : list (string * json)) : string :=
         match o with
         | [] => EmptyString
         | (k', y) :: o' =>
             "," ++ newline_indent (S lvl) ++ quote k' ++ ": " ++
             encode (S lvl) y ++ more o'
         end) o ++
      newline_indent lvl ++ "}"
  end.

Definition dumps (v : json) : string := encode 0 v.

(** *** [json.loads(s)] *)

(** The white space the decoder skips between tokens: blank, TAB, LF, CR. *)
Definition is_ws (c : ascii) : bool :=
  Ascii.eqb c " " || Ascii.eqb c TAB || Ascii.eqb c LF || Ascii.eqb c CR.

Fixpoint skip_ws (s : string) : string :=
  match s with
  | EmptyString => EmptyString
  | String c s' => if is_ws c then skip_ws s' else s
  end.

Definition hex_value (c : ascii) : option N :=
  let n := N_of_ascii c in
  (if (48 <=? n) && (n <=? 57) then Some (n - 48)
   else if (97 <=? n) && (n <=? 102) then Some (n - 87)
   else if (65 <=? n) && (n <=? 70) then Some (n - 55)
   else None)%N.

Definition hex4 (a b c d : ascii) : option N :=
  match hex_value a, hex_value b, hex_value c, hex_value d with
  | Some x, Some y, Some z, Some w => Some (((x * 16 + y) * 16 + z) * 16 + w)%N
  | _, _, _, _ => None
  end.

(** What a string literal is made of once the escapes are read: a byte
    taken as it stands, or the 16-bit unit of a [\uXXXX] escape. *)
Inductive unit16 : Type :=
| Byte (c : ascii)
| Unit (n : N).

(** The body of a string literal up to its closing quote. A raw control
    character is refused, as the decoder does in its default strict mode. *)
Fixpoint scan_units (s : string) : option (list unit16 * string) :=
  match s with
  | EmptyString => None
  | String c r =>
      if Ascii.eqb c DQ then Some ([], r)
      else if Ascii.eqb c BSL then
        match r with
        | String "u" (String h1 (String h2 (String h3 (String h4 r')))) =>
            match hex4 h1 h2 h3 h4, scan_units r' with
            | Some n, Some (us, rest) => Some (Unit n :: us, rest)
            | _, _ => None
            end
        | String e r' =>
            let plain (x : ascii) :=
              match scan_units r' with
              | Some (us, rest) => Some (Byte x :: us, rest)
              | None => None
              end in
            if Ascii.eqb e DQ then plain DQ
            else if Ascii.eqb e BSL then plain BSL
            else if Ascii.eqb e "/" then plain "/"%char
            else if Ascii.eqb e "b" then plain BS
            else if Ascii.eqb e "f" then plain FF
            else if Ascii.eqb e "n" then plain LF
            else if Ascii.eqb e "r" then plain CR
            else if Ascii.eqb e "t" then plain TAB
            else None
        | EmptyString => None
        end
      else if (nat_of_ascii c <? 32)%nat then None
      else
        match scan_units r with
        | Some (us, rest) => Some (Byte c :: us, rest)
        | None => None
        end
  end.

(** The UTF-8 bytes of a code point. *)
Definition utf8 (cp : N) : string :=
  let byte (n : N) := ascii_of_N n in
  (if cp <? 128 then String (byte cp) EmptyString
   else if cp <? 2048 then
     String (byte (192 + cp / 64)) (String (byte (128 + cp mod 64)) EmptyString)
   else if cp <? 65536 then
     String (byte (224 + cp / 4096))
       (String (byte (128 + (cp / 64) mod 64))
          (String (byte (128 + cp mod 64)) EmptyString))
   else
     String (byte (240 + cp / 262144))
       (String (byte (128 + (cp / 4096) mod 64))
          (String (byte (128 + (cp / 64) mod 64))
             (String (byte (128 + cp mod 64)) EmptyString))))%N.

(** The text of the units: a high surrogate followed at once by a low one
    is a single code point. *)
Fixpoint text_of_units (us : list unit16) : string :=
  match us with
  | [] => EmptyString
  | Byte c :: us' => String c (text_of_units us')
  | Unit n :: us' =>
      match us' with
      | Unit m :: us'' =>
          if ((55296 <=? n) && (n <=? 56319) && (56320 <=? m) && (m <=? 57343))%N
          then utf8 (65536 + (n - 55296) * 1024 + (m - 56320))%N
               ++ text_of_units us''
          else utf8 n ++ text_of_units us'
      | _ => utf8 n ++ text_of_units us'
      end
  end.

(** A string literal, the opening quote already read. *)
Definition scanstring (s : string) : option (string * string) :=
  match scan_units s with
  | Some (us, rest) => Some (text_of_units us, rest)
  | None => None
  end.

Definition is_digit (c : ascii) : bool :=
  let n := nat_of_ascii c in ((48 <=? n) && (n <=? 57))%nat.

Fixpoint scan_digits (acc : Z) (s : string) : Z * string :=
  match s with
  | String c s' =>
      if is_digit c
      then scan_digits (acc * 10 + Z.of_nat (nat_of_ascii c - 48)) s'
      else (acc, s)
  | EmptyString => (acc, s)
  end.

(** Whether a fraction [.d] or an exponent [e], [e+d], [e-d] follows: the
    numeral is then a float, which this reading does not cover. *)
Definition float_tail (s : string) : bool :=
  match s with
  | String c r =>
      if Ascii.eqb c "." then
        match r with
        | String d _ => is_digit d
        | EmptyString => false
        end
      else if Ascii.eqb c "e" || Ascii.eqb c "E" then
        match r with
        | String sg r' =>
            is_digit sg ||
            ((Ascii.eqb sg "+" || Ascii.eqb sg "-") &&
             match r' with
             | String d _ => is_digit d
             | EmptyString => false
             end)
        | EmptyString => false
        end
      else false
  | EmptyString => false
  end.

(** The digits of an integer numeral: a lone [0], or a run of digits that
    does not start with [0]. *)
Definition scan_natural (s : string) : option (Z * string) :=
  match s with
  | String c s' =>
      if negb (is_digit c) then None
      else
        let '(n, rest) :=
          if Ascii.eqb c "0" then (0, s') else scan_digits 0 s in
        if float_tail rest then None else Some (n, rest)
  | EmptyString => None
  end.

(** [s] without its prefix [p], when it has it. *)
Fixpoint after (p s : string) : option string :=
  match p, s with
  | EmptyString, _ => Some s
  | String a p', String b s' => if Ascii.eqb a b then after p' s' else None
  | String _ _, EmptyString => None
  end.

(** One value at the head of [s]; [s] starts at the value. The three
    functions follow the decoder's scanner, array loop and object loop.
    The object loop collects the pairs and builds the dict from them, so
    that the last of two equal keys wins; here the dict is built on the
    way. The recursion is bounded by [fuel]. *)
Fixpoint parse_value (fuel : nat) (s : string) {struct fuel}
  : option (json * string) :=
  match fuel with
  | O => None
  | S f =>
      match s with
      | EmptyString => None
      | String c r =>
          if Ascii.eqb c DQ then
            match scanstring r with
            | Some (t, rest) => Some (JStr t, rest)
            | None => None
            end
          else if Ascii.eqb c "{" then
            match skip_ws r with
            | String "}" rest => Some (JObj [], rest)
            | r1 =>
                match parse_members f [] r1 with
                | Some (o, rest) => Some (JObj o, rest)
                | None => None
                end
            end
          else if Ascii.eqb c "[" then
            match skip_ws r with
            | String "]" rest => Some (JArr [], rest)
            | r1 =>
                match parse_items f r1 with
                | Some (l, rest) => Some (JArr l, rest)
                | None => None
                end
            end
          else if Ascii.eqb c "n" then
            match after "null" s with
            | Some rest => Some (JNull, rest)
            | None => None
            end
          else if Ascii.eqb c "t" then
            match after "true" s with
            | Some rest => Some (JBool true, rest)
            | None => None
            end
          else if Ascii.eqb c "f" then
            match after "false" s with
            | Some rest => Some (JBool false, rest)
            | None => None
            end
          else if Ascii.eqb c "-" then
            match scan_natural r with
            | Some (n, rest) => Some (JInt (- n), rest)
            | None => None
            end
          else
            match scan_natural s with
            | Some (n, rest) => Some (JInt n, rest)
            | None => None
            end
      end
  end

with parse_items (fuel : nat) (s : string) {struct fuel}
  : option (list json * string) :=
  match fuel with
  | O => None
  | S f =>
      match parse_value f s with
      | Some (v, rest) =>
          match skip_ws rest with
          | String "]" rest' => Some ([v], rest')
          | String "," rest' =>
              match parse_items f (skip_ws rest') with
              | Some (l, rest'') => Some (v :: l, rest'')
              | None => None
              end
          | _ => None
          end
      | None => None
      end
  end

with parse_members (fuel : nat) (acc : list (string * json)) (s : string)
  {struct fuel} : option (list (string * json) * string) :=
  match fuel with
  | O => None
  | S f =>
      match s with
      | String c r =>
          if negb (Ascii.eqb c DQ) then None
          else
            match scanstring r with
            | Some (k, rest) =>
                match skip_ws rest with
                | String ":" rest1 =>
                    match parse_value f (skip_ws rest1) with
                    | Some (v, rest2) =>
                        match skip_ws rest2 with
                        | String "}" rest3 => Some (Py.dict_set k v acc, rest3)
                        | String "," rest3 =>
                            parse_members f (Py.dict_set k v acc) (skip_ws rest3)
                        | _ => None
                        end
                    | None => None
                    end
                | _ => None
                end
            | None => None
            end
      | EmptyString => None
      end
  end.

(** One value, white space allowed around it, nothing else behind it:
    what [json.loads] reads from a text without float numerals. [None] is
    the decoder's error, or a numeral this reading does not cover. *)
Definition parse (s : string) : option json :=
  match parse_value (2 * String.length s + 2) (skip_ws s) with
  | Some (v, rest) =>
      match skip_ws rest with
      | EmptyString => Some v
      | _ => None
      end
  | None => None
  end.

(** The values on which reading and writing are the same on every Python:
    no float, no integer of more than 640 digits (the least limit an
    interpreter can set on the conversion between [int] and [str]), and a
    nesting that stays far from the recursion limit. *)
Fixpoint tame_within (depth : nat) (v : json) {struct depth} : bool :=
  match v with
  | JNull | JBool _ | JStr _ => true
  | JInt n => Z.abs n <? 10 ^ 640
  | JFloat _ => false
  | JArr l =>
      match depth with
      | O => false
      | S d => forallb (tame_within d) l
      end
  | JObj o =>
      match depth with
      | O => false
      | S d => forallb (fun kv => tame_within d (snd kv)) o
      end
  end.

Definition tame (v : json) : bool := tame_within 64 v.

End Json.

(* ===================================================================== *)
(** ** The Python runtime *)
(* ===================================================================== *)

(** What the store takes from the runtime. The fields are total functions;
    the laws state what is known of them and is used below. *)
Class Runtime : Type := {
  (** [s.lower()] *)
  str_lower : string -> string;
  (** [s.strip()] *)
  str_strip : string -> string;
  (** [a == b] *)
  py_eq : json -> json -> bool;
  (** [str(v)], which is what an f-string field [{v}] writes *)
  py_str : json -> string;
  (** [json.load] on a file opened for reading with [encoding="utf-8"] that
      holds the given bytes: the value, or [None] when an exception leaves
      the [with] block (a decoding error of the file or of the JSON text) *)
  json_loads : string -> option json;
  (** The bytes in a file after [json.dump(v, f, ensure_ascii=False,
      indent=2)] inside [with open(..., "w", encoding="utf-8") as f],
      whether the dump ran to its end or an exception stopped it *)
  json_dump : json -> string;
  (** The file a path names; two paths name the same file when this is the
      same *)
  realpath : string -> string;
  (** [QTableWidgetItem(u)] and [setToolTip(u)] accept [u] *)
  url_item_ok : json -> bool;
  (** [QTableWidgetItem(st)] accepts [st], and [st] can be a dict key *)
  status_item_ok : json -> bool;

  lower_on_ascii : forall s : string,
    PyStr.is_ascii s = true -> str_lower s = PyStr.lower_ascii s;
  strip_on_ascii : forall s : string,
    PyStr.is_ascii s = true -> str_strip s = PyStr.strip_ascii s;
  lower_not_empty : forall s : string,
    str_lower s = EmptyString -> s = EmptyString;
  (** lowering the letters A to Z first changes nothing *)
  lower_after_lower_ascii : forall s : string,
    str_lower (PyStr.lower_ascii s) = str_lower s;
  (** letters are no white space *)
  strip_lower_ascii : forall s : string,
    str_strip (PyStr.lower_ascii s) = PyStr.lower_ascii (str_strip s);
  eq_str : forall a b : string, py_eq (JStr a) (JStr b) = String.eqb a b;
  eq_none : py_eq JNull JNull = true;
  eq_none_str : forall a : string, py_eq JNull (JStr a) = false;
  eq_str_none : forall a : string, py_eq (JStr a) JNull = false;
  str_of_str : forall s : string, py_str (JStr s) = s;
  loads_tame : forall (s : string) (v : json),
    Utf8.valid s = true -> Json.parse s = Some v -> Json.tame v = true ->
    json_loads s = Some v;
  dump_tame : forall v : json,
    Json.tame v = true -> Utf8.valid (Json.dumps v) = true ->
    json_dump v = Json.dumps v;
  (** a str that cannot be encoded stops the dump before the text is
      closed, and what is left in the file does not parse *)
  dump_unwritable : forall v : json,
    Json.tame v = true -> Utf8.valid (Json.dumps v) = false ->
    json_loads (json_dump v) = None;
  url_item_str : forall s : string, url_item_ok (JStr s) = true;
  status_item_str : forall s : string, status_item_ok (JStr s) = true
}.

(* ===================================================================== *)
(** ** The history manager *)
(* ===================================================================== *)

Definition HISTORY_FILE : string := "download_history.json".
Definition MAX_VISIBLE : Z := 15.

(** The fields of [HistoryManager] that the store reads or writes, and the
    files on disk, each under the name [realpath] gives it. A row of
    [table] holds the two values handed to the URL item and to the status
    item, or nothing when the row was inserted and its items were not set.
    [empty_label] and [load_more_btn] are the visibility of the two
    widgets. *)
Record state : Type := mkState {
  history : json;
  display_count : Z;
  search_bar : string;
  table : list (option (json * json));
  empty_label : bool;
  load_more_btn : bool;
  disk : gmap string string
}.

Definition set_history (h : json) (s : state) : state :=
  mkState h (display_count s) (search_bar s) (table s) (empty_label s)
    (load_more_btn s) (disk s).

Definition set_display_count (n : Z) (s : state) : state :=
  mkState (history s) n (search_bar s) (table s) (empty_label s)
    (load_more_btn s) (disk s).

Definition set_search_bar (t : string) (s : state) : state :=
  mkState (history s) (display_count s) t (table s) (empty_label s)
    (load_more_btn s) (disk s).

Definition set_table (rows : list (option (json * json))) (s : state) : state :=
  mkState (history s) (display_count s) (search_bar s) rows (empty_label s)
    (load_more_btn s) (disk s).

Definition set_empty_label (b : bool) (s : state) : state :=
  mkState (history s) (display_count s) (search_bar s) (table s) b
    (load_more_btn s) (disk s).

Definition set_load_more_btn (b : bool) (s : state) : state :=
  mkState (history s) (display_count s) (search_bar s) (table s)
    (empty_label s) b (disk s).

Definition set_disk (d : gmap string string) (s : state) : state :=
  mkState (history s) (display_count s) (search_bar s) (table s)
    (empty_label s) (load_more_btn s) d.

(** How a method call ends: it returns, or an exception leaves it. Either
    way the state is the one reached at that point. *)
Inductive outcome : Type :=
| Done (s : state)
| Raised (e : exn) (s : state).

Definition final (o : outcome) : state :=
  match o with
  | Done s => s
  | Raised _ s => s
  end.

Definition returns (o : outcome) : bool :=
  match o with
  | Done _ => true
  | Raised _ _ => false
  end.

(** The outcome with the search text of its state replaced. *)
Definition with_search_bar (t : string) (o : outcome) : outcome :=
  match o with
  | Done s => Done (set_search_bar t s)
  | Raised e s => Raised e (set_search_bar t s)
  end.

(** The message box that closes [export_history]. *)
Inductive dialog : Type :=
| Information
| Warning.

Section Store.

Context {R : Runtime}.

(** The history file, as the disk knows it. *)
Definition history_path : string := realpath HISTORY_FILE.

(** [v.lower()]: only a str has the method. *)
Definition lower_of (v : json) : result string :=
  match v with
  | JStr s => Ok (str_lower s)
  | _ => Raise AttributeError
  end.

(** [self.search_bar.text().strip().lower()] *)
Definition query_of (text : string) : string :=
  str_lower (str_strip text).

(** [query in item.get("url", "").lower() or
     query in item.get("status", "").lower()] *)
Definition item_matches (query : string) (item : json) : result bool :=
  try! u := Py.get item "url" (JStr "") in
  try! ul := lower_of u in
  if PyStr.contains query ul then Ok true
  else
    try! st := Py.get item "status" (JStr "") in
    try! sl := lower_of st in
    Ok (PyStr.contains query sl).

(** The list comprehension [[item for item in show_items if ...]]. *)
Fixpoint filter_items (query : string) (items : list json)
  : result (list json) :=
  match items with
  | [] => Ok []
  | item :: rest =>
      try! keep := item_matches query item in
      try! kept := filter_items query rest in
      Ok (if keep then item :: kept else kept)
  end.

(** The first lines of [refresh_history_list] and of [delete_callback]:
<<
    query = self.search_bar.text().strip().lower()
    show_items = self.history[-self.display_count:][::-1]
    if query:
        show_items = [item for item in show_items if ...]
>>
    as a function of the record list, the search text and the count. *)
Definition show_items (h : json) (text : string) (count : Z)
  : result (list json) :=
  let query := query_of text in
  try! seq := Py.sequence h in
  let page := rev (Py.slice_from seq (- count)) in
  if PyStr.truthy query then filter_items query page else Ok page.

(** The body of the loop that fills the table, after the row is inserted:
    the two values read from the item and handed to the two Qt items. *)
Definition row_items (item : json) : result (json * json) :=
  try! u := Py.get item "url" (JStr "") in
  if negb (url_item_ok u) then Raise TypeError
  else
    try! st := Py.get item "status" (JStr "") in
    if negb (status_item_ok st) then Raise TypeError
    else Ok (u, st).

(** The loop that fills the table, one row per item. The row is inserted
    first and its two items are set last, so the row of an item on which
    an exception is raised stays in the table, empty. *)
Fixpoint fill_rows (items : list json) (rows : list (option (json * json)))
  : list (option (json * json)) * option exn :=
  match items with
  | [] => (rows, None)
  | item :: rest =>
      match row_items item with
      | Ok r => fill_rows rest (rows ++ [Some r])
      | Raise e => ((rows ++ [None])%list, Some e)
      end
  end.

Definition refresh_history_list (s : state) : outcome :=
  let s := set_table [] s in
  let query := query_of (search_bar s) in
  match show_items (history s) (search_bar s) (display_count s) with
  | Raise e => Raised e s
  | Ok [] => Done (set_load_more_btn false (set_empty_label true s))
  | Ok items =>
      let s := set_empty_label false s in
      match fill_rows items [] with
      | (rows, Some e) => Raised e (set_table rows s)
      | (rows, None) =>
          let s := set_table rows s in
          match Py.len (history s) with
          | Raise e => Raised e s
          | Ok n =>
              Done (set_load_more_btn
                      ((display_count s <? n) && negb (PyStr.truthy query)) s)
          end
      end
  end.

(** The file is opened for writing and [json.dump] writes to it; an
    exception of the dump is swallowed by the [except] clause and leaves
    the file with what was written before it. *)
Definition save_history (s : state) : state :=
  set_disk (<[history_path := json_dump (history s)]> (disk s)) s.

Definition load_history (s : state) : outcome :=
  let s := set_history (JArr []) s in
  let s :=
    match disk s !! history_path with
    | Some content =>
        match json_loads content with
        | Some v => set_history v s
        | None => set_history (JArr []) s
        end
    | None => s
    end in
  let s := set_display_count MAX_VISIBLE s in
  refresh_history_list s.

Definition show_more_history (s : state) : outcome :=
  refresh_history_list (set_display_count (display_count s + MAX_VISIBLE) s).

(** [reply] is the answer to the confirmation box: [true] for Yes. *)
Definition clear_history (reply : bool) (s : state) : outcome :=
  if reply
  then refresh_history_list (save_history (set_history (JArr []) s))
  else Done s.

(** The scan of [delete_callback]:
<<
    for i, h in enumerate(self.history):
        if h.get("url") == to_del.get("url") and
           h.get("status") == to_del.get("status"):
            self.history.pop(i)
            break
>>
    [get] without a default gives [None] for an absent key. *)
Fixpoint pop_first_match (to_del : json) (l : list json)
  : result (list json) :=
  match l with
  | [] => Ok []
  | h :: l' =>
      try! hu := Py.get h "url" JNull in
      try! tu := Py.get to_del "url" JNull in
      try! same :=
        (if py_eq hu tu then
           try! hs := Py.get h "status" JNull in
           try! ts := Py.get to_del "status" JNull in
           Ok (py_eq hs ts)
         else Ok false) in
      if same then Ok l'
      else
        try! l'' := pop_first_match to_del l' in
        Ok (h :: l'')
  end.

Definition delete_callback (view_idx : Z) (s : state) : outcome :=
  match show_items (history s) (search_bar s) (display_count s) with
  | Raise e => Raised e s
  | Ok items =>
      if (0 <=? view_idx) && (view_idx <? Z.of_nat (length items)) then
        match items !! Z.to_nat view_idx with
        | None => Done s
        | Some to_del =>
            match
              (try! seq := Py.iter (history s) in
               pop_first_match to_del seq)
            with
            | Raise e => Raised e s
            | Ok l =>
                let s := set_history (JArr l) s in
                let s := save_history s in
                let s :=
                  set_display_count
                    (Z.min (display_count s) (Z.of_nat (length l))) s in
                refresh_history_list s
            end
        end
      else Done s
  end.

Definition add_to_history (url status : string) (s : state) : outcome :=
  match history s with
  | JArr l =>
      let s :=
        set_history (JArr (l ++ [JObj [("url", JStr url); ("status", JStr status)]])) s in
      let s := save_history s in
      let s :=
        set_display_count
          (Z.min (display_count s + 1) (Z.of_nat (length l + 1))) s in
      refresh_history_list s
  | _ => Raised AttributeError s
  end.

(** The slot of [search_bar.textChanged]: the new text is in the widget
    when [refresh_history_list] runs. *)
Definition search_text_changed (text : string) (s : state) : outcome :=
  refresh_history_list (set_search_bar text s).

(** [__init__], as far as the data goes. *)
Definition init (d : gmap string string) : outcome :=
  load_history (mkState (JArr []) MAX_VISIBLE "" [] false true d).

(** [f"URL: {item.get('url', '')}\nStatus: {item.get('status', '')}\n\n"] *)
Definition export_block (item : json) : result string :=
  try! u := Py.get item "url" (JStr "") in
  try! st := Py.get item "status" (JStr "") in
  Ok ("URL: " ++ py_str u ++ String Json.LF ("Status: " ++ py_str st
        ++ String Json.LF (String Json.LF EmptyString))).

(** How the loop of [export_history] ends: at the end of the list, or on
    an exception, which is [UnicodeEncodeError] when [f.write] is given a
    text that has no UTF-8 encoding. *)
Inductive stop : Type :=
| Finished
| Failed.

(** The loop of [export_history]: the text written to the file so far, and
    how the loop ended. A block that cannot be encoded is not written, in
    whole or in part. *)
Fixpoint write_blocks (items : list json) (written : string)
  : string * stop :=
  match items with
  | [] => (written, Finished)
  | item :: rest =>
      match export_block item with
      | Ok block =>
          if Utf8.valid block then write_blocks rest (written ++ block)
          else (written, Failed)
      | Raise _ => (written, Failed)
      end
  end.

(** [path] is the file name chosen in the save dialog, empty when the
    dialog is cancelled. Opening the file for writing empties it; every
    exception raised inside the [try] ends in the warning box. *)
Definition export_history (path : string) (s : state)
  : state * option dialog :=
  if negb (PyStr.truthy path) then (s, None)
  else
    match Py.iter (history s) with
    | Raise _ => (set_disk (<[realpath path := ""]> (disk s)) s, Some Warning)
    | Ok items =>
        match write_blocks items "" with
        | (text, Finished) =>
            (set_disk (<[realpath path := text]> (disk s)) s, Some Information)
        | (text, Failed) =>
            (set_disk (<[realpath path := text]> (disk s)) s, Some Warning)
        end
    end.

End Store.

(* ===================================================================== *)
(** ** Records *)
(* ===================================================================== *)

(** The dict [add_to_history] appends. *)
Definition record (url status : string) : json :=
  JObj [("url", JStr url); ("status", JStr status)].

(** The text under key [k] of an item, when the item is a dict that has a
    str there. *)
Definition field (k : string) (item : json) : option string :=
  match item with
  | JObj o =>
      match Py.dict_get k o with
      | Some (JStr t) => Some t
      | _ => None
      end
  | _ => None
  end.

(** A key is well typed in a dict when it is absent or bound to a str. *)
Definition field_ok (k : string) (o : list (string * json)) : bool :=
  match Py.dict_get k o with
  | None | Some (JStr _) => true
  | Some _ => false
  end.

(** A record: a dict whose ["url"] and ["status"], when present, are
    strings. Other keys are free. *)
Definition is_record (item : json) : bool :=
  match item with
  | JObj o => field_ok "url" o && field_ok "status" o
  | _ => false
  end.

Definition records (l : list json) : Prop :=
  Forall (fun item => is_record item = true) l.

(** A record of the data model: both fields present. *)
Definition is_full_record (item : json) : bool :=
  match field "url" item, field "status" item with
  | Some _, Some _ => true
  | _, _ => false
  end.

(** The texts a record shows: an absent field reads as the empty string. *)
Definition url_of (item : json) : string :=
  match field "url" item with Some t => t | None => EmptyString end.

Definition status_of (item : json) : string :=
  match field "status" item with Some t => t | None => EmptyString end.

(** The two texts of a record can be written to a UTF-8 file: neither has
    a lone surrogate. *)
Definition writable (item : json) : bool :=
  Utf8.valid (url_of item) && Utf8.valid (status_of item).

(** The identity [delete_callback] compares: the two fields, absent or not. *)
Definition key_of (item : json) : option string * option string :=
  (field "url" item, field "status" item).

(** What [item.get(k)] gives on a record: the str, or [None]. *)
Definition value_or_none (o : option string) : json :=
  match o with
  | Some t => JStr t
  | None => JNull
  end.

(** Whether two items have the same identity for deletion. *)
Definition same_key (a b : json) : bool :=
  bool_decide (key_of a = key_of b).

(** A list without the first of its items that passes [test]. *)
Fixpoint remove_first (test : json -> bool) (l : list json) : list json :=
  match l with
  | [] => []
  | h :: l' => if test h then l' else h :: remove_first test l'
  end.

(** The page: the last [count] records, newest first, as the slice
    [history[-count:][::-1]] computes it. *)
Definition page (l : list json) (count : Z) : list json :=
  rev (Py.slice_from l (- count)).

(** The last [n] items of a list. *)
Definition last_n {A : Type} (n : nat) (l : list A) : list A :=
  drop (length l - n) l.

(** The row of the table for a record. *)
Definition row_of (item : json) : option (json * json) :=
  Some (JStr (url_of item), JStr (status_of item)).

(** The export text as the specification words it: one block per record, in
    stored order, two lines and a blank line each. *)
Definition spec_block (item : json) : string :=
  "URL: " ++ url_of item ++ String Json.LF
    ("Status: " ++ status_of item ++ String Json.LF (String Json.LF EmptyString)).

Fixpoint spec_export (l : list json) : string :=
  match l with
  | [] => EmptyString
  | item :: rest => spec_block item ++ spec_export rest
  end.

(** The record list built from pairs of url and status, as a run of
    [add_to_history] calls builds it. *)
Definition plain (ps : list (string * string)) : list json :=
  map (fun p => record (fst p) (snd p)) ps.

Definition writable_pair (p : string * string) : bool :=
  Utf8.valid (fst p) && Utf8.valid (snd p).

(** A text between double quotes. *)
Definition quoted (s : string) : string :=
  String Json.DQ (s ++ String Json.DQ EmptyString).

(** A history file with one record that has a url and no status: the text
    [[{"url": "a"}]]. *)
Definition url_only_file : string :=
  "[{" ++ quoted "url" ++ ": " ++ quoted "a" ++ "}]".

(** The str of one lone surrogate, U+D800, in the bytes the embedding gives
    it. *)
Definition lone_surrogate : string :=
  String (ascii_of_nat 237) (String (ascii_of_nat 160)
    (String (ascii_of_nat 128) EmptyString)).

(** A history file with one record whose url is the escape of a lone
    surrogate: the text [[{"url": "\ud800", "status": "ok"}]]. *)
Definition surrogate_file : string :=
  "[{" ++ quoted "url" ++ ": " ++ quoted (String Json.BSL "ud800") ++ ", "
       ++ quoted "status" ++ ": " ++ quoted "ok" ++ "}]".



(** The unit the decoder reads back for a character as [Json.escape_char]
    writes it: the 16-bit unit of the escape for a control character that
    has no short escape, the character itself otherwise. *)
Definition unit_of (c : ascii) : Json.unit16 :=
  let n := nat_of_ascii c in
  if ((n <? 32) && negb ((n =? 8) || (n =? 9) || (n =? 10) || (n =? 12)
                         || (n =? 13)))%nat
  then Json.Unit (N_of_ascii c)
  else Json.Byte c.

Fixpoint units_of (s : string) : list Json.unit16 :=
  match s with
  | EmptyString => []
  | String c s' => unit_of c :: units_of s'
  end.

(** The text [Json.encode] writes for the items of an array after the
    first, at nesting level [lvl]. *)
Fixpoint encode_more (lvl : nat) (l : list json) : string :=
  match l with
  | [] => EmptyString
  | y :: l' =>
      "," ++ Json.newline_indent (S lvl) ++ Json.encode (S lvl) y
          ++ encode_more lvl l'
  end.

Section Views.

Context {R : Runtime}.

(** The search test on a record, without the exceptions. *)
Definition matches (query : string) (item : json) : bool :=
  PyStr.contains query (str_lower (url_of item)) ||
  PyStr.contains query (str_lower (status_of item)).

(** The filtered view of a list of records, without the exceptions: the
    page, filtered when the stripped and lowered text is not empty. *)
Definition view (l : list json) (text : string) (count : Z) : list json :=
  if PyStr.truthy (query_of text)
  then List.filter (matches (query_of text)) (page l count)
  else page l count.

End Views.

(* ===================================================================== *)
(** ** Sessions *)
(* ===================================================================== *)

(** What the user, or the download code, can make the widget do. The row of
    [Delete] is the one the context menu was opened on. *)
Inductive action : Type :=
| Load
| ShowMore
| Clear (reply : bool)
| Delete (row : Z)
| Add (url status : string)
| Search (text : string)
| ExportTo (path : string).

Section Sessions.

Context {R : Runtime}.

Definition run (a : action) (s : state) : outcome :=
  match a with
  | Load => load_history s
  | ShowMore => show_more_history s
  | Clear reply => clear_history reply s
  | Delete row => delete_callback row s
  | Add url status => add_to_history url status s
  | Search text => search_text_changed text s
  | ExportTo path => Done (fst (export_history path s))
  end.

(** A run of actions, stopped by the first exception. *)
Fixpoint run_all (acts : list action) (s : state) : outcome :=
  match acts with
  | [] => Done s
  | a :: rest =>
      match run a s with
      | Done s' => run_all rest s'
      | Raised e s' => Raised e s'
      end
  end.

(** A run of actions in a widget that lives on after an exception: each
    action starts from the state the one before it ended in. *)
Fixpoint run_through (acts : list action) (s : state) : state :=
  match acts with
  | [] => s
  | a :: rest => run_through rest (final (run a s))
  end.

(** The actions of an ordinary session: what is added is text that can be
    written to a file, and an export goes to another file than the history
    file. *)
Definition ordinary (a : action) : Prop :=
  match a with
  | Add url status => Utf8.valid url = true /\ Utf8.valid status = true
  | ExportTo path => realpath path <> history_path
  | _ => True
  end.

(** The count is not negative, and is 0 only when the list is empty. *)
Definition count_ok (s : state) : Prop :=
  0 <= display_count s /\ (display_count s = 0 -> history s = JArr []).

(** The record list is the one built from [ps]; the count is not
    negative, and is 0 only when the list is empty; the history file is
    absent with the list empty, or holds the text of the list. *)
Definition session_with (ps : list (string * string)) (s : state) : Prop :=
  history s = JArr (plain ps) /\
  0 <= display_count s /\
  (display_count s = 0 -> ps = []) /\
  ((disk s !! history_path = None /\ ps = []) \/
   disk s !! history_path = Some (Json.dumps (JArr (plain ps)))).

(** The states a session goes through when it starts without a history
    file: the history is a list of records as [add_to_history] builds them;
    the count is not negative, and is 0 only when the list is empty; the
    history file is absent with the list empty, or holds the text of the
    list. *)
Definition in_session (s : state) : Prop :=
  exists ps : list (string * string), session_with ps s.

(** A session state whose texts can all be written to a file. *)
Definition in_written_session (s : state) : Prop :=
  exists ps : list (string * string),
    session_with ps s /\ Forall (fun p => writable_pair p = true) ps.

End Sessions.

(* ===================================================================== *)
(** ** Facts about strings *)
(* ===================================================================== *)

(** Case analysis on the 256 bytes. *)
Ltac each_char c :=
  destruct c as [b0 b1 b2 b3 b4 b5 b6 b7];
  destruct b0, b1, b2, b3, b4, b5, b6, b7.

Section StringFacts.

Import PyStr.

Lemma lstrip_all_space (s : string) :
  all_space s = true -> lstrip_ascii s = EmptyString.
Proof.
  induction s as [|c s IH]; simpl; [reflexivity|].
  intros H. apply andb_true_iff in H as [Hc Hs].
  rewrite Hc. auto.
Qed.

Lemma rstrip_all_space (s : string) :
  all_space s = true -> rstrip_ascii s = EmptyString.
Proof.
  induction s as [|c s IH]; simpl; [reflexivity|].
  intros H. apply andb_true_iff in H as [Hc Hs].
  rewrite (IH Hs), Hc. reflexivity.
Qed.

Lemma strip_all_space (s : string) :
  all_space s = true -> strip_ascii s = EmptyString.
Proof.
  intros H. unfold strip_ascii. rewrite (rstrip_all_space s H). reflexivity.
Qed.

Lemma rstrip_empty_all_space (s : string) :
  rstrip_ascii s = EmptyString -> all_space s = true.
Proof.
  induction s as [|c s IH]; simpl; [reflexivity|].
  destruct (rstrip_ascii s) eqn:E; [|discriminate].
  destruct (is_space c); [|discriminate].
  intros _. simpl. auto.
Qed.

Lemma lstrip_rstrip_empty (s : string) :
  lstrip_ascii (rstrip_ascii s) = EmptyString -> rstrip_ascii s = EmptyString.
Proof.
  induction s as [|c s IH]; simpl; [reflexivity|].
  destruct (rstrip_ascii s) as [|d r] eqn:E.
  - destruct (is_space c) eqn:Hc; simpl; [reflexivity|].
    rewrite Hc. discriminate.
  - simpl. destruct (is_space c) eqn:Hc; [|discriminate].
    intros H. specialize (IH H). discriminate.
Qed.

(** A text strips to nothing exactly when it is white space only. *)
Lemma strip_empty_iff (s : string) :
  strip_ascii s = EmptyString <-> all_space s = true.
Proof.
  split.
  - intros H. apply rstrip_empty_all_space, lstrip_rstrip_empty, H.
  - apply strip_all_space.
Qed.

Lemma lower_empty_iff (s : string) :
  lower_ascii s = EmptyString <-> s = EmptyString.
Proof. destruct s; simpl; split; (reflexivity || discriminate). Qed.

Lemma truthy_false_iff (s : string) :
  truthy s = false <-> s = EmptyString.
Proof. destruct s; simpl; split; (reflexivity || discriminate). Qed.

Lemma prefix_spec (q s : string) :
  String.prefix q s = true <-> exists t : string, s = q ++ t.
Proof.
  revert s. induction q as [|a q IH]; intros s; simpl.
  - split; [intros _; exists s; reflexivity | destruct s; reflexivity].
  - destruct s as [|b s].
    + split; [discriminate | intros [t Ht]; discriminate].
    + simpl. destruct (ascii_dec a b) as [->|Hab].
      * rewrite IH. split; intros [t Ht]; exists t.
        -- simpl. now rewrite Ht.
        -- simpl in Ht. now inversion Ht.
      * split; [discriminate|].
        intros [t Ht]. simpl in Ht. inversion Ht. congruence.
Qed.

(** [q in s] decides that [q] is a substring of [s]. *)
Lemma contains_spec (q s : string) :
  contains q s = true <-> substring_of q s.
Proof.
  unfold substring_of.
  induction s as [|c s IH]; cbn [contains].
  - rewrite orb_false_r, prefix_spec. split.
    + intros [t Ht]. exists EmptyString, t. exact Ht.
    + intros [a [b H]]. destruct a; simpl in H; [eauto | discriminate].
  - rewrite orb_true_iff, prefix_spec, IH. split.
    + intros [[t Ht] | [a [b H]]].
      * exists EmptyString, t. exact Ht.
      * exists (String c a), b. simpl. now rewrite H.
    + intros [a [b H]]. destruct a as [|d a]; simpl in H.
      * left. eauto.
      * right. inversion H. eauto.
Qed.

Lemma contains_empty (s : string) : contains EmptyString s = true.
Proof. destruct s; reflexivity. Qed.


Lemma str_app_cons (x : ascii) (a b : string) :
  (String x a ++ b = String x (a ++ b))%string.
Proof. reflexivity. Qed.

Lemma str_app_nil_l (b : string) : ("" ++ b = b)%string.
Proof. reflexivity. Qed.

Lemma str_app_assoc (a b c : string) : ((a ++ b) ++ c = a ++ (b ++ c))%string.
Proof.
  induction a as [|x a IH]; [reflexivity|].
  now rewrite !str_app_cons, IH.
Qed.

Lemma str_app_nil_r (a : string) : (a ++ "" = a)%string.
Proof.
  induction a as [|x a IH]; [reflexivity|].
  now rewrite str_app_cons, IH.
Qed.

Lemma length_str_app (a b : string) :
  String.length (a ++ b) = (String.length a + String.length b)%nat.
Proof.
  induction a as [|c a IH]; [reflexivity|].
  rewrite str_app_cons. cbn [String.length]. now rewrite IH.
Qed.

Lemma is_space_lower_char (c : ascii) :
  is_space (lower_char c) = is_space c.
Proof. each_char c; reflexivity. Qed.

Lemma lower_char_idem (c : ascii) : lower_char (lower_char c) = lower_char c.
Proof. each_char c; reflexivity. Qed.

Lemma lower_ascii_idem (s : string) :
  lower_ascii (lower_ascii s) = lower_ascii s.
Proof.
  induction s as [|c s IH]; [reflexivity|].
  cbn [lower_ascii]. now rewrite lower_char_idem, IH.
Qed.

Lemma lower_lstrip (s : string) :
  lower_ascii (lstrip_ascii s) = lstrip_ascii (lower_ascii s).
Proof.
  induction s as [|c s IH]; [reflexivity|].
  cbn [lstrip_ascii lower_ascii]. rewrite is_space_lower_char.
  destruct (is_space c); [exact IH | reflexivity].
Qed.

Lemma lower_rstrip (s : string) :
  lower_ascii (rstrip_ascii s) = rstrip_ascii (lower_ascii s).
Proof.
  induction s as [|c s IH]; [reflexivity|].
  cbn [rstrip_ascii lower_ascii]. rewrite <- IH, is_space_lower_char.
  destruct (rstrip_ascii s) as [|d r]; cbn [lower_ascii].
  - destruct (is_space c); reflexivity.
  - reflexivity.
Qed.

Lemma lower_strip (s : string) :
  lower_ascii (strip_ascii s) = strip_ascii (lower_ascii s).
Proof. unfold strip_ascii. now rewrite lower_lstrip, lower_rstrip. Qed.

Lemma is_space_is_ascii (c : ascii) :
  is_space c = true -> (nat_of_ascii c <? 128)%nat = true.
Proof. each_char c; (reflexivity || discriminate). Qed.

Lemma all_space_is_ascii (s : string) :
  all_space s = true -> is_ascii s = true.
Proof.
  induction s as [|c s IH]; [reflexivity|]. cbn [all_space is_ascii].
  intros H. apply andb_true_iff in H as [Hc Hs].
  now rewrite (is_space_is_ascii c Hc), IH.
Qed.

Lemma is_ascii_lstrip (s : string) :
  is_ascii s = true -> is_ascii (lstrip_ascii s) = true.
Proof.
  induction s as [|c s IH]; [reflexivity|]. cbn [is_ascii lstrip_ascii].
  intros H. destruct (is_space c); [|exact H].
  apply andb_true_iff in H as [_ H]. auto.
Qed.

Lemma is_ascii_rstrip (s : string) :
  is_ascii s = true -> is_ascii (rstrip_ascii s) = true.
Proof.
  induction s as [|c s IH]; [reflexivity|]. cbn [is_ascii rstrip_ascii].
  intros H. apply andb_true_iff in H as [Hc Hs]. specialize (IH Hs).
  destruct (rstrip_ascii s) as [|d r].
  - destruct (is_space c); [reflexivity|]. cbn [is_ascii]. now rewrite Hc.
  - cbn [is_ascii] in *. now rewrite Hc.
Qed.

Lemma is_ascii_strip (s : string) :
  is_ascii s = true -> is_ascii (strip_ascii s) = true.
Proof. intros H. apply is_ascii_lstrip, is_ascii_rstrip, H. Qed.

End StringFacts.

(* ===================================================================== *)
(** ** Facts about UTF-8 *)
(* ===================================================================== *)

Section Utf8Facts.

Import Utf8.

Lemma run_app (q : state) (a b : string) : run q (a ++ b) = run (run q a) b.
Proof.
  revert q. induction a as [|c a IH]; intros q; [reflexivity|].
  rewrite str_app_cons. cbn [run]. apply IH.
Qed.

Lemma run_reject (s : string) : run Reject s = Reject.
Proof. induction s as [|c s IH]; [reflexivity|]. exact IH. Qed.

Lemma valid_run (s : string) : valid s = true <-> run Start s = Start.
Proof. unfold valid. destruct (run Start s); split; congruence. Qed.

Lemma valid_app (a b : string) :
  valid a = true -> valid b = true -> valid (a ++ b) = true.
Proof.
  rewrite !valid_run, run_app. intros -> Hb. exact Hb.
Qed.

Lemma run_ascii (s : string) :
  PyStr.is_ascii s = true -> run Start s = Start.
Proof.
  induction s as [|c s IH]; [reflexivity|]. cbn [PyStr.is_ascii run].
  intros H. apply andb_true_iff in H as [Hc Hs].
  unfold step. rewrite Hc. auto.
Qed.

Lemma valid_ascii (s : string) : PyStr.is_ascii s = true -> valid s = true.
Proof. intros H. apply valid_run, run_ascii, H. Qed.

(** A byte below 128 is accepted at a character boundary only. *)
Lemma step_low (q : state) (c : ascii) :
  (nat_of_ascii c <? 128)%nat = true ->
  step q c = match q with Start => Start | _ => Reject end.
Proof.
  intros H. destruct q; unfold step; rewrite ?H; try reflexivity;
    apply Nat.ltb_lt in H; unfold between;
    repeat match goal with
    | |- context [(?a <=? ?b)%nat] => destruct (Nat.leb_spec a b)
    end; cbn; try reflexivity; lia.
Qed.

Lemma escape_char_ascii (c : ascii) :
  (nat_of_ascii c <? 128)%nat = true ->
  PyStr.is_ascii (Json.escape_char c) = true.
Proof. each_char c; intros H; (reflexivity || discriminate H). Qed.

Lemma escape_char_high (c : ascii) :
  (nat_of_ascii c <? 128)%nat = false ->
  Json.escape_char c = String c EmptyString.
Proof. each_char c; intros H; (reflexivity || discriminate H). Qed.

(** Escaping keeps a text encodable: the escapes are ASCII and stand where
    an ASCII character stood. *)
Lemma run_escape (s : string) :
  forall q : state, run q s = Start -> run q (Json.escape s) = Start.
Proof.
  induction s as [|c s IH]; intros q H; [exact H|].
  cbn [run] in H. cbn [Json.escape]. rewrite run_app.
  destruct (nat_of_ascii c <? 128)%nat eqn:Hc.
  - rewrite (step_low q c Hc) in H. destruct q;
      try (rewrite run_reject in H; discriminate).
    rewrite (run_ascii _ (escape_char_ascii c Hc)). apply IH, H.
  - rewrite (escape_char_high c Hc). cbn [run]. apply IH, H.
Qed.

Lemma valid_escape (s : string) :
  valid s = true -> valid (Json.escape s) = true.
Proof. rewrite !valid_run. apply run_escape. Qed.

Lemma valid_quote (s : string) :
  valid s = true -> valid (Json.quote s) = true.
Proof.
  intros H. unfold Json.quote.
  change (String Json.DQ (Json.escape s ++ String Json.DQ ""))
    with (String Json.DQ "" ++ (Json.escape s ++ String Json.DQ "")).
  apply valid_app; [reflexivity|].
  apply valid_app; [apply valid_escape, H | reflexivity].
Qed.

Lemma is_ascii_spaces (n : nat) : PyStr.is_ascii (Json.spaces n) = true.
Proof. induction n as [|n IH]; [reflexivity|]. exact IH. Qed.

Lemma valid_newline_indent (lvl : nat) :
  valid (Json.newline_indent lvl) = true.
Proof. apply valid_ascii. unfold Json.newline_indent. apply is_ascii_spaces. Qed.

End Utf8Facts.

(* ===================================================================== *)
(** ** Writing a list of records and reading it back *)
(* ===================================================================== *)

Section RoundTrip.

Import Json.

(** One escaped character is read back as its unit. *)
Lemma scan_units_escape_char (c : ascii) (r : string) :
  scan_units (escape_char c ++ r) =
    match scan_units r with
    | Some (us, rest) => Some (unit_of c :: us, rest)
    | None => None
    end.
Proof. each_char c; reflexivity. Qed.

Lemma text_of_units_unit_of (c : ascii) (us : list unit16) :
  text_of_units (unit_of c :: us) = String c (text_of_units us).
Proof. each_char c; try reflexivity; destruct us as [|[d|m] us]; reflexivity. Qed.

Lemma text_of_units_of (s : string) : text_of_units (units_of s) = s.
Proof.
  induction s as [|c s IH]; [reflexivity|].
  cbn [units_of]. now rewrite text_of_units_unit_of, IH.
Qed.

Lemma scan_units_escape (s rest : string) :
  scan_units (escape s ++ String DQ rest) = Some (units_of s, rest).
Proof.
  induction s as [|c s IH]; [reflexivity|].
  cbn [escape units_of].
  now rewrite str_app_assoc, scan_units_escape_char, IH.
Qed.

(** A string literal is read back as the string it was written from. *)
Lemma scanstring_escape (s rest : string) :
  scanstring (escape s ++ String DQ rest) = Some (s, rest).
Proof.
  unfold scanstring. now rewrite scan_units_escape, text_of_units_of.
Qed.

End RoundTrip.

Section RoundTripFile.

Import Json.

Lemma skip_ws_spaces (n : nat) (r : string) :
  skip_ws (spaces n ++ r) = skip_ws r.
Proof. induction n as [|n IH]; [reflexivity|]. exact IH. Qed.

Lemma skip_ws_newline_indent (lvl : nat) (r : string) :
  skip_ws (newline_indent lvl ++ r) = skip_ws r.
Proof. unfold newline_indent. rewrite str_app_cons. apply skip_ws_spaces. Qed.

(** The text of a record at nesting level [lvl], spelled out. *)
Lemma encode_record (lvl : nat) (u st : string) :
  encode lvl (record u st) =
    "{" ++ newline_indent (S lvl) ++ String DQ ("url" ++ String DQ (": " ++
      String DQ (escape u ++ String DQ ("," ++ newline_indent (S lvl) ++
        String DQ ("status" ++ String DQ (": " ++
          String DQ (escape st ++ String DQ (newline_indent lvl ++ "}")))))))).
Proof.
  unfold record. cbn [encode]. unfold quote.
  rewrite !str_app_cons, !str_app_assoc, !str_app_cons, !str_app_nil_l.
  repeat (rewrite ?str_app_cons, ?str_app_assoc, ?str_app_nil_l).
  reflexivity.
Qed.

(** The equations of the decoder at the tokens the history file is made
    of. *)
Lemma parse_value_string (f : nat) (r t rest : string) :
  scanstring r = Some (t, rest) ->
  parse_value (S f) (String DQ r) = Some (JStr t, rest).
Proof. intros H. cbn [parse_value]. cbn. now rewrite H. Qed.

Lemma parse_value_object (f : nat) (r r' : string) :
  skip_ws r = String DQ r' ->
  parse_value (S f) (String "{" r) =
    match parse_members f [] (String DQ r') with
    | Some (o, rest) => Some (JObj o, rest)
    | None => None
    end.
Proof. intros H. cbn. now rewrite H. Qed.

Lemma parse_value_array (f : nat) (r r' : string) :
  skip_ws r = String "{" r' ->
  parse_value (S f) (String "[" r) =
    match parse_items f (String "{" r') with
    | Some (l, rest) => Some (JArr l, rest)
    | None => None
    end.
Proof. intros H. cbn. now rewrite H. Qed.

Lemma parse_members_last (f : nat) (acc : list (string * json))
    (r k rest rest1 rest2 rest3 : string) (v : json) :
  scanstring r = Some (k, rest) ->
  skip_ws rest = String ":" rest1 ->
  parse_value f (skip_ws rest1) = Some (v, rest2) ->
  skip_ws rest2 = String "}" rest3 ->
  parse_members (S f) acc (String DQ r) = Some (Py.dict_set k v acc, rest3).
Proof. intros H1 H2 H3 H4. cbn. now rewrite H1, H2, H3, H4. Qed.

Lemma parse_members_next (f : nat) (acc : list (string * json))
    (r k rest rest1 rest2 rest3 : string) (v : json) :
  scanstring r = Some (k, rest) ->
  skip_ws rest = String ":" rest1 ->
  parse_value f (skip_ws rest1) = Some (v, rest2) ->
  skip_ws rest2 = String "," rest3 ->
  parse_members (S f) acc (String DQ r) =
    parse_members f (Py.dict_set k v acc) (skip_ws rest3).
Proof. intros H1 H2 H3 H4. cbn. now rewrite H1, H2, H3, H4. Qed.

Lemma parse_items_last (f : nat) (s rest rest' : string) (v : json) :
  parse_value f s = Some (v, rest) ->
  skip_ws rest = String "]" rest' ->
  parse_items (S f) s = Some ([v], rest').
Proof. intros H1 H2. cbn. now rewrite H1, H2. Qed.

Lemma parse_items_next (f : nat) (s rest rest' : string) (v : json) :
  parse_value f s = Some (v, rest) ->
  skip_ws rest = String "," rest' ->
  parse_items (S f) s =
    match parse_items f (skip_ws rest') with
    | Some (l, rest'') => Some (v :: l, rest'')
    | None => None
    end.
Proof. intros H1 H2. cbn. now rewrite H1, H2. Qed.

Lemma skip_ws_quote (r : string) : skip_ws (String DQ r) = String DQ r.
Proof. reflexivity. Qed.

(** A record is read back from its text, whatever follows it. *)
Lemma parse_value_record (f lvl : nat) (u st rest : string) :
  parse_value (4 + f) (encode lvl (record u st) ++ rest) =
    Some (record u st, rest).
Proof.
  rewrite encode_record.
  repeat (rewrite ?str_app_cons, ?str_app_assoc, ?str_app_nil_l).
  cbn [Nat.add].
  erewrite parse_value_object
    by (rewrite skip_ws_newline_indent; reflexivity).
  erewrite parse_members_next.
  2: exact (scanstring_escape "url" _).
  2: reflexivity.
  2: apply parse_value_string, scanstring_escape.
  2: reflexivity.
  rewrite skip_ws_newline_indent, skip_ws_quote.
  erewrite parse_members_last.
  2: exact (scanstring_escape "status" _).
  2: reflexivity.
  2: apply parse_value_string, scanstring_escape.
  2: rewrite skip_ws_newline_indent; reflexivity.
  reflexivity.
Qed.

Lemma encode_array (lvl : nat) (x : json) (l : list json) :
  encode lvl (JArr (x :: l)) =
    "[" ++ newline_indent (S lvl) ++ encode (S lvl) x ++
    encode_more lvl l ++ newline_indent lvl ++ "]".
Proof.
  cbn [encode]. do 4 f_equal.
  induction l as [|y l IH]; [reflexivity|].
  cbn [encode_more]. now rewrite IH.
Qed.

Lemma record_opens (lvl : nat) (u st rest : string) :
  exists r' : string, encode lvl (record u st) ++ rest = String "{" r'.
Proof. rewrite encode_record, !str_app_cons. eauto. Qed.

Lemma skip_ws_record (lvl : nat) (u st rest : string) :
  skip_ws (encode lvl (record u st) ++ rest) =
    encode lvl (record u st) ++ rest.
Proof. destruct (record_opens lvl u st rest) as [r' ->]. reflexivity. Qed.

(** The items of an array of records are read back, one call deep per
    item. *)
Lemma parse_items_records (ps : list (string * string)) :
  forall (u st : string) (f : nat) (rest : string),
    parse_items (length ps + 5 + f)
      (encode 1 (record u st) ++ encode_more 0 (plain ps) ++
       newline_indent 0 ++ "]" ++ rest) =
      Some (record u st :: plain ps, rest).
Proof.
  induction ps as [|[u' st'] ps IH]; intros u st f rest.
  - apply (parse_items_last (4 + f) _ _ _ _ (parse_value_record _ _ _ _ _)).
    reflexivity.
  - cbn [length plain map fst snd Nat.add encode_more].
    erewrite parse_items_next.
    2: { replace (length ps + 5 + f)%nat with (4 + (length ps + 1 + f))%nat
           by lia.
         apply parse_value_record. }
    2: { rewrite ?str_app_assoc. reflexivity. }
    rewrite skip_ws_newline_indent, ?str_app_assoc, skip_ws_record.
    fold (plain ps). now rewrite IH.
Qed.

Lemma length_encode_more (lvl : nat) (l : list json) :
  (length l <= String.length (encode_more lvl l))%nat.
Proof.
  induction l as [|y l IH]; [reflexivity|].
  cbn [encode_more length]. rewrite !length_str_app.
  cbn [String.length]. lia.
Qed.

(** What [dumps] writes for a list of records, [parse] reads back. *)
Lemma parse_dumps_records (ps : list (string * string)) :
  parse (dumps (JArr (plain ps))) = Some (JArr (plain ps)).
Proof.
  destruct ps as [|[u st] ps]; [reflexivity|].
  unfold parse, dumps. cbn [plain map fst snd]. fold (plain ps).
  rewrite encode_array.
  assert (Hlen : (length ps + 2 <=
            String.length ("[" ++ newline_indent 1 ++ encode 1 (record u st)
              ++ encode_more 0 (plain ps) ++ newline_indent 0 ++ "]"))%nat).
  { rewrite !length_str_app. pose proof (length_encode_more 0 (plain ps)) as H.
    unfold plain in H at 1. rewrite length_map in H.
    cbn [String.length]. lia. }
  remember (String.length _) as n eqn:En. clear En.
  replace (2 * n + 2)%nat with (S (length ps + 5 + (2 * n - length ps - 4)))
    by lia.
  rewrite str_app_cons, str_app_nil_l.
  change (skip_ws (String "[" ?x)) with (String "[" x).
  destruct (record_opens 1 u st
              (encode_more 0 (plain ps) ++ newline_indent 0 ++ "]"))
    as [r' Er].
  erewrite parse_value_array
    by (rewrite skip_ws_newline_indent, skip_ws_record; exact Er).
  rewrite <- Er.
  rewrite <- (str_app_nil_r "]") at 1.
  rewrite (parse_items_records ps u st _ ""). reflexivity.
Qed.

End RoundTripFile.

Section RecordText.

Import Json.

Lemma valid_encode_record (lvl : nat) (u st : string) :
  Utf8.valid u = true -> Utf8.valid st = true ->
  Utf8.valid (encode lvl (record u st)) = true.
Proof.
  intros Hu Hst. unfold record. cbn [encode].
  repeat first
    [ apply valid_newline_indent
    | apply valid_quote; (exact Hu || exact Hst || reflexivity)
    | apply valid_app
    | reflexivity ].
Qed.

Lemma valid_encode_more (lvl : nat) (ps : list (string * string)) :
  Forall (fun p => writable_pair p = true) ps ->
  Utf8.valid (encode_more lvl (plain ps)) = true.
Proof.
  induction 1 as [|[u st] ps Hp Hps IH]; [reflexivity|].
  cbn [plain map fst snd encode_more]. fold (plain ps).
  apply andb_true_iff in Hp as [Hu Hst]. cbn [fst snd] in Hu, Hst.
  apply valid_app; [reflexivity|].
  apply valid_app; [apply valid_newline_indent|].
  apply valid_app; [now apply valid_encode_record | exact IH].
Qed.

(** The text of a list of records that can be written is UTF-8. *)
Lemma valid_dumps_records (ps : list (string * string)) :
  Forall (fun p => writable_pair p = true) ps ->
  Utf8.valid (dumps (JArr (plain ps))) = true.
Proof.
  intros H. destruct H as [|[u st] ps Hp Hps]; [reflexivity|].
  unfold dumps. cbn [plain map fst snd]. fold (plain ps).
  rewrite encode_array.
  apply andb_true_iff in Hp as [Hu Hst]. cbn [fst snd] in Hu, Hst.
  apply valid_app; [reflexivity|].
  apply valid_app; [apply valid_newline_indent|].
  apply valid_app; [now apply valid_encode_record|].
  apply valid_app; [now apply valid_encode_more|].
  apply valid_app; [apply valid_newline_indent | reflexivity].
Qed.

Lemma tame_within_records (d : nat) (ps : list (string * string)) :
  tame_within (S (S d)) (JArr (plain ps)) = true.
Proof.
  change (forallb (tame_within (S d)) (plain ps) = true).
  apply forallb_forall. intros v Hin.
  apply in_map_iff in Hin as [[u st] [<- _]]. destruct d; reflexivity.
Qed.

Lemma tame_records (ps : list (string * string)) :
  tame (JArr (plain ps)) = true.
Proof. exact (tame_within_records 62 ps). Qed.

End RecordText.

(* ===================================================================== *)
(** ** A runtime *)
(* ===================================================================== *)

(** [==] as far as the laws say: two strings, or [None] twice. *)
Definition reference_eq (a b : json) : bool :=
  match a, b with
  | JStr x, JStr y => String.eqb x y
  | JNull, JNull => true
  | _, _ => false
  end.

Definition reference_str (v : json) : string :=
  match v with
  | JStr s => s
  | _ => Json.dumps v
  end.

(** A runtime that satisfies the laws, to run the store on texts of ASCII
    characters and on values without floats. It lowers the letters A to Z
    and strips the ASCII white space; it reads a file with [Json.parse]
    when the bytes are UTF-8; for a text that cannot be encoded it leaves
    the file empty, where Python leaves the beginning of the text, up to a
    point before the first character it cannot encode. *)
Definition reference_runtime : Runtime := {|
  str_lower := PyStr.lower_ascii;
  str_strip := PyStr.strip_ascii;
  py_eq := reference_eq;
  py_str := reference_str;
  json_loads := fun s => if Utf8.valid s then Json.parse s else None;
  json_dump := fun v =>
    if Utf8.valid (Json.dumps v) then Json.dumps v else EmptyString;
  realpath := fun p => p;
  url_item_ok := fun _ => true;
  status_item_ok := fun _ => true;
  lower_on_ascii := fun s _ => eq_refl;
  strip_on_ascii := fun s _ => eq_refl;
  lower_not_empty := fun s H => proj1 (lower_empty_iff s) H;
  lower_after_lower_ascii := lower_ascii_idem;
  strip_lower_ascii := fun s => eq_sym (lower_strip s);
  eq_str := fun a b => eq_refl;
  eq_none := eq_refl;
  eq_none_str := fun a => eq_refl;
  eq_str_none := fun a => eq_refl;
  str_of_str := fun s => eq_refl;
  loads_tame := fun s v Hs Hp _ =>
    eq_trans (f_equal (fun b : bool => if b then Json.parse s else None) Hs) Hp;
  dump_tame := fun v _ Hv =>
    f_equal (fun b : bool => if b then Json.dumps v else EmptyString) Hv;
  dump_unwritable := fun v _ Hv =>
    f_equal (fun b : bool =>
               if Utf8.valid (if b then Json.dumps v else EmptyString)
               then Json.parse (if b then Json.dumps v else EmptyString)
               else None) Hv;
  url_item_str := fun s => eq_refl;
  status_item_str := fun s => eq_refl
|}.

(* ===================================================================== *)
(** ** The history file under any runtime *)
(* ===================================================================== *)

Section FileFacts.

Context {R : Runtime}.

Lemma loads_dumps_records (ps : list (string * string)) :
  Forall (fun p => writable_pair p = true) ps ->
  json_loads (Json.dumps (JArr (plain ps))) = Some (JArr (plain ps)).
Proof.
  intros H. apply loads_tame.
  - apply valid_dumps_records, H.
  - apply parse_dumps_records.
  - apply tame_records.
Qed.

Lemma dump_records (ps : list (string * string)) :
  Forall (fun p => writable_pair p = true) ps ->
  json_dump (JArr (plain ps)) = Json.dumps (JArr (plain ps)).
Proof.
  intros H. apply dump_tame; [apply tame_records | apply valid_dumps_records, H].
Qed.

Lemma dump_empty : json_dump (JArr []) = "[]".
Proof. apply (dump_records []). constructor. Qed.

Lemma loads_empty : json_loads "[]" = Some (JArr []).
Proof. apply (loads_dumps_records []). constructor. Qed.

(** The stripped and lowered text, on ASCII. *)
Lemma query_of_ascii (text : string) :
  PyStr.is_ascii text = true ->
  query_of text = PyStr.lower_ascii (PyStr.strip_ascii text).
Proof.
  intros H. unfold query_of.
  rewrite (strip_on_ascii text H).
  apply lower_on_ascii, is_ascii_strip, H.
Qed.

Lemma strip_all_space_any (text : string) :
  PyStr.all_space text = true -> str_strip text = EmptyString.
Proof.
  intros H. rewrite (strip_on_ascii text (all_space_is_ascii text H)).
  now apply strip_all_space.
Qed.

Lemma strip_blank_ascii (text : string) :
  PyStr.strip_ascii text = EmptyString -> str_strip text = EmptyString.
Proof. intros H. apply strip_all_space_any, strip_empty_iff, H. Qed.

Lemma lower_empty : str_lower EmptyString = EmptyString.
Proof. apply (lower_on_ascii "" eq_refl). Qed.

Lemma query_of_empty_iff (text : string) :
  query_of text = EmptyString <-> str_strip text = EmptyString.
Proof.
  unfold query_of. split.
  - apply lower_not_empty.
  - intros ->. apply lower_empty.
Qed.

Lemma query_of_blank (text : string) :
  str_strip text = EmptyString -> query_of text = EmptyString.
Proof. apply query_of_empty_iff. Qed.

Lemma query_of_nil : query_of EmptyString = EmptyString.
Proof. apply query_of_blank, strip_all_space_any. reflexivity. Qed.

(** Texts that differ in the case of ASCII letters only are searched
    alike. *)
Lemma query_of_lower_ascii (t1 t2 : string) :
  PyStr.lower_ascii t1 = PyStr.lower_ascii t2 -> query_of t1 = query_of t2.
Proof.
  intros H. unfold query_of.
  rewrite <- (lower_after_lower_ascii (str_strip t1)).
  rewrite <- (lower_after_lower_ascii (str_strip t2)).
  now rewrite <- !strip_lower_ascii, H.
Qed.

End FileFacts.

(* ===================================================================== *)
(** ** The view of a list of records *)
(* ===================================================================== *)

(** Reduce the field accesses on updated states. *)
Ltac state_simpl :=
  cbn [history display_count search_bar table empty_label load_more_btn disk
       set_history set_display_count set_search_bar set_table set_empty_label
       set_load_more_btn set_disk final returns with_search_bar] in *.

Section View.

Context {R : Runtime}.

Lemma get_record_url (item : json) :
  is_record item = true ->
  Py.get item "url" (JStr "") = Ok (JStr (url_of item)).
Proof.
  destruct item as [| | | | |?|o]; try discriminate.
  unfold is_record, field_ok, url_of, field. cbn [Py.get].
  intros H. apply andb_true_iff in H as [Hu _].
  destruct (Py.dict_get "url" o) as [[]|]; (reflexivity || discriminate).
Qed.

Lemma get_record_status (item : json) :
  is_record item = true ->
  Py.get item "status" (JStr "") = Ok (JStr (status_of item)).
Proof.
  destruct item as [| | | | |?|o]; try discriminate.
  unfold is_record, field_ok, status_of, field. cbn [Py.get].
  intros H. apply andb_true_iff in H as [_ Hs].
  destruct (Py.dict_get "status" o) as [[]|]; (reflexivity || discriminate).
Qed.

Lemma item_matches_record (q : string) (item : json) :
  is_record item = true -> item_matches q item = Ok (matches q item).
Proof.
  intros H. unfold item_matches, matches.
  rewrite (get_record_url item H), (get_record_status item H).
  cbn [bind lower_of].
  destruct (PyStr.contains q (str_lower (url_of item))); reflexivity.
Qed.

Lemma filter_items_records (q : string) (l : list json) :
  records l -> filter_items q l = Ok (List.filter (matches q) l).
Proof.
  induction 1 as [|item l Hi Hl IH]; [reflexivity|].
  cbn [filter_items List.filter].
  rewrite (item_matches_record q item Hi), IH. reflexivity.
Qed.

Lemma records_drop (n : nat) (l : list json) :
  records l -> records (drop n l).
Proof. apply Forall_drop. Qed.

Lemma records_rev (l : list json) : records l -> records (rev l).
Proof.
  intros H. apply Forall_forall. intros x Hx.
  apply list_elem_of_In, in_rev, list_elem_of_In in Hx.
  revert x Hx. apply Forall_forall. exact H.
Qed.

Lemma records_filter (f : json -> bool) (l : list json) :
  records l -> records (List.filter f l).
Proof.
  intros H. apply Forall_forall. intros x Hx.
  apply list_elem_of_In, filter_In in Hx as [Hx _].
  apply list_elem_of_In in Hx.
  revert x Hx. apply Forall_forall. exact H.
Qed.

Lemma records_page (l : list json) (count : Z) :
  records l -> records (page l count).
Proof. intros H. apply records_rev, records_drop, H. Qed.

(** On records the view never raises: it is the page, filtered when the
    stripped and lowered text is not empty. *)
Lemma show_items_records (l : list json) (text : string) (count : Z) :
  records l ->
  show_items (JArr l) text count = Ok (view l text count).
Proof.
  intros H. unfold show_items, view. cbn [Py.sequence bind].
  fold (page l count).
  destruct (PyStr.truthy (query_of text)); [|reflexivity].
  apply filter_items_records, records_page, H.
Qed.

Lemma row_items_record (item : json) :
  is_record item = true ->
  row_items item = Ok (JStr (url_of item), JStr (status_of item)).
Proof.
  intros H. unfold row_items.
  rewrite (get_record_url item H), (get_record_status item H).
  cbn [bind]. now rewrite url_item_str, status_item_str.
Qed.

Lemma fill_rows_records (l : list json) (rows : list (option (json * json))) :
  records l ->
  fill_rows l rows = ((rows ++ map row_of l)%list, None).
Proof.
  intros H. revert rows.
  induction H as [|item l Hi Hl IH]; intros rows; cbn [fill_rows map].
  - now rewrite app_nil_r.
  - rewrite (row_items_record item Hi), IH.
    now rewrite <- app_assoc.
Qed.

(** [slice_start] for the three kinds of count. *)
Lemma slice_start_positive (len : nat) (count : Z) :
  0 < count -> Py.slice_start len (- count) = (len - Z.to_nat count)%nat.
Proof.
  intros H. unfold Py.slice_start.
  destruct (Z.ltb_spec (- count) 0); lia.
Qed.

Lemma slice_start_zero (len : nat) : Py.slice_start len (- 0) = 0%nat.
Proof.
  unfold Py.slice_start. change (- 0) with 0.
  destruct (Z.ltb_spec 0 0); lia.
Qed.

Lemma slice_start_negative (len : nat) (count : Z) :
  count < 0 -> Py.slice_start len (- count) = Nat.min (Z.to_nat (- count)) len.
Proof.
  intros H. unfold Py.slice_start.
  destruct (Z.ltb_spec (- count) 0); lia.
Qed.

Lemma page_positive (l : list json) (count : Z) :
  0 < count -> page l count = rev (last_n (Z.to_nat count) l).
Proof.
  intros H. unfold page, Py.slice_from, last_n.
  now rewrite slice_start_positive.
Qed.

Lemma page_zero (l : list json) : page l 0 = rev l.
Proof. unfold page, Py.slice_from. now rewrite slice_start_zero. Qed.

Lemma page_nil (count : Z) : page [] count = [].
Proof. unfold page, Py.slice_from. now rewrite drop_nil. Qed.


Lemma records_view (l : list json) (text : string) (count : Z) :
  records l -> records (view l text count).
Proof.
  intros H. unfold view. destruct (PyStr.truthy (query_of text)).
  - apply records_filter, records_page, H.
  - apply records_page, H.
Qed.

(** With a blank search text the view is the page. *)
Lemma view_blank (l : list json) (text : string) (count : Z) :
  str_strip text = EmptyString -> view l text count = page l count.
Proof.
  intros H. unfold view. now rewrite (query_of_blank text H).
Qed.

(** [refresh_history_list] on a list of records: it returns, with the
    table filled from the view. *)
Lemma refresh_records (s : state) (l : list json) :
  history s = JArr l ->
  records l ->
  refresh_history_list s =
    Done (match view l (search_bar s) (display_count s) with
          | [] => set_load_more_btn false (set_empty_label true (set_table [] s))
          | items =>
              set_load_more_btn
                ((display_count s <? Z.of_nat (length l))
                 && negb (PyStr.truthy (query_of (search_bar s))))
                (set_table (map row_of items)
                   (set_empty_label false (set_table [] s)))
          end).
Proof.
  intros Hh Hl. unfold refresh_history_list.
  cbn [history search_bar display_count set_table].
  rewrite Hh, (show_items_records l _ _ Hl).
  pose proof (records_view l (search_bar s) (display_count s) Hl) as Hv.
  destruct (view l (search_bar s) (display_count s)) as [|x v]; [reflexivity|].
  rewrite (fill_rows_records _ [] Hv).
  cbn [app history set_table set_empty_label display_count search_bar].
  rewrite Hh. reflexivity.
Qed.

(** On a list of records [refresh_history_list] returns, and the table
    shows the view. *)
Lemma refresh_records_done (s : state) (l : list json) :
  history s = JArr l ->
  records l ->
  exists s' : state,
    refresh_history_list s = Done s' /\
    table s' = map row_of (view l (search_bar s) (display_count s)).
Proof.
  intros Hh Hl. rewrite (refresh_records s l Hh Hl).
  eexists. split; [reflexivity|].
  destruct (view l (search_bar s) (display_count s)); reflexivity.
Qed.

Lemma show_items_query_of (h : json) (t1 t2 : string) (count : Z) :
  query_of t1 = query_of t2 ->
  show_items h t1 count = show_items h t2 count.
Proof. intros H. unfold show_items. now rewrite H. Qed.

(** [refresh_history_list] looks at the search text through [query_of]
    only. *)
Lemma refresh_query_of (t1 t2 : string) (s : state) :
  query_of t1 = query_of t2 ->
  refresh_history_list (set_search_bar t1 s) =
    with_search_bar t1 (refresh_history_list (set_search_bar t2 s)).
Proof.
  intros H. destruct s as [h dc sb tb el lm d].
  unfold refresh_history_list. state_simpl.
  rewrite (show_items_query_of _ t1 t2 _ H), H.
  destruct (show_items h t2 dc) as [[|x items]|e]; try reflexivity.
  destruct (fill_rows (x :: items) []) as [rows [e|]]; [reflexivity|].
  destruct (Py.len h); reflexivity.
Qed.

(** [delete_callback] looks at the search text through [query_of] only. *)
Lemma delete_query_of (t1 t2 : string) (view_idx : Z) (s : state) :
  query_of t1 = query_of t2 ->
  delete_callback view_idx (set_search_bar t1 s) =
    with_search_bar t1 (delete_callback view_idx (set_search_bar t2 s)).
Proof.
  intros H. destruct s as [h dc sb tb el lm d].
  unfold delete_callback. state_simpl.
  rewrite (show_items_query_of _ t1 t2 _ H).
  destruct (show_items h t2 dc) as [items|e]; [|reflexivity].
  destruct ((0 <=? view_idx) && (view_idx <? Z.of_nat (length items)));
    [|reflexivity].
  destruct (items !! Z.to_nat view_idx) as [to_del|]; [|reflexivity].
  destruct (try! seq := Py.iter h in pop_first_match to_del seq)
    as [l|e]; [|reflexivity].
  unfold save_history. state_simpl.
  apply (refresh_query_of t1 t2
           (mkState (JArr l) (Z.min dc (Z.of_nat (length l))) sb tb el lm
              (<[history_path := json_dump (JArr l)]> d)) H).
Qed.

(** What [refresh_history_list] leaves alone, whether it returns or
    raises. *)
Lemma refresh_frame (s : state) :
  let s' := final (refresh_history_list s) in
  history s' = history s /\ display_count s' = display_count s /\
  search_bar s' = search_bar s /\ disk s' = disk s.
Proof.
  destruct s as [h dc sb tb el lm d].
  unfold refresh_history_list. state_simpl.
  destruct (show_items h sb dc) as [[|x items]|e]; state_simpl; auto.
  destruct (fill_rows (x :: items) []) as [rows [e|]]; state_simpl; auto.
  destruct (Py.len h); state_simpl; auto.
Qed.

Lemma refresh_idempotent (s : state) :
  refresh_history_list (final (refresh_history_list s)) =
  refresh_history_list s.
Proof.
  destruct s as [h dc sb tb el lm d].
  unfold refresh_history_list. state_simpl.
  destruct (show_items h sb dc) as [[|x items]|e] eqn:E; state_simpl;
    rewrite ?E; try reflexivity.
  destruct (fill_rows (x :: items) []) as [rows [e|]] eqn:F; state_simpl;
    rewrite ?E, ?F; try reflexivity.
  destruct (Py.len h) eqn:L; state_simpl; rewrite ?E, ?F, ?L; reflexivity.
Qed.

End View.

(* ===================================================================== *)
(** ** Reading the view changes nothing *)
(* ===================================================================== *)

Section PureRead.

Context {R : Runtime}.

(** C9. Computing the filtered view is a pure read. The view is a function
    of the record list, the search text and the count alone, and the method
    that shows it, [refresh_history_list], leaves the record list, the count,
    the search text and the files as they are, whether it returns or raises.
    Run a second time with nothing changed in between, it ends in the same
    way with the same state, so the same rows are shown. *)
Theorem refresh_history_list_pure_read (s : state) :
  let s' := final (refresh_history_list s) in
  history s' = history s /\
  display_count s' = display_count s /\
  search_bar s' = search_bar s /\
  disk s' = disk s /\
  show_items (history s') (search_bar s') (display_count s') =
    show_items (history s) (search_bar s) (display_count s) /\
  refresh_history_list s' = refresh_history_list s.
Proof.
  intros s'. destruct (refresh_frame s) as (Hh & Hc & Ht & Hd).
  fold s' in Hh, Hc, Ht, Hd.
  rewrite Hh, Hc, Ht, Hd. repeat split; try reflexivity.
  apply refresh_idempotent.
Qed.

End PureRead.

(* ===================================================================== *)
(** ** The search text is used stripped and lowered *)
(* ===================================================================== *)

(** Evaluate the store on given data, up to the runtime. *)
Ltac run_store :=
  lazy -[str_lower str_strip py_eq py_str json_loads json_dump realpath
         url_item_ok status_item_ok].

(** Replace the lowering and the stripping of a given ASCII text by its
    value. *)
Ltac ascii_text :=
  repeat match goal with
    | |- context [str_lower ?s] =>
        rewrite (lower_on_ascii s eq_refl)
    | |- context [str_strip ?s] =>
        rewrite (strip_on_ascii s eq_refl)
    end.

Section SearchText.

Context {R : Runtime}.

(** The view of a list of records, with the stripping and the lowering of
    the search text written out. *)
Lemma show_items_stripped_lowered (l : list json) (t : string) (count : Z) :
  records l ->
  show_items (JArr l) t count =
    Ok (if PyStr.truthy (str_lower (str_strip t))
        then List.filter (matches (str_lower (str_strip t))) (page l count)
        else page l count).
Proof. apply show_items_records. Qed.

(** The text [" A "] finds the url ["Xa"]: it is stripped, it is lowered,
    and so is the url. *)
Lemma show_items_strips_and_lowers :
  show_items (JArr [record "Xa" "ok"; record "b" "no"]) " A " 15 =
    Ok [record "Xa" "ok"].
Proof.
  rewrite show_items_stripped_lowered by (repeat constructor).
  run_store. ascii_text. reflexivity.
Qed.

(** C10. The search text is stripped and lowered before it is used, for the
    filter, for the emptiness test behind the load-more button, and for the
    view [delete_callback] resolves its index in: the view of a list of
    records is the page filtered by [text.strip().lower()] when that is not
    empty, so that [" A "] finds the url ["Xa"]. A search text that strips
    to nothing, as every text of white space does, therefore gives the same
    view, the same load-more visibility and the same deletion as the empty
    search text; the states reached differ in the text of the search bar
    alone. *)
Theorem whitespace_search_same_as_empty
    (text : string) (view_idx : Z) (s : state) :
  str_strip text = EmptyString ->
  (forall (l : list json) (t : string) (count : Z),
     records l ->
     show_items (JArr l) t count =
       Ok (if PyStr.truthy (str_lower (str_strip t))
           then List.filter (matches (str_lower (str_strip t))) (page l count)
           else page l count)) /\
  show_items (JArr [record "Xa" "ok"; record "b" "no"]) " A " 15 =
    Ok [record "Xa" "ok"] /\
  (forall t : string, PyStr.all_space t = true -> str_strip t = EmptyString) /\
  str_lower (str_strip text) = EmptyString /\
  query_of text = query_of "" /\
  show_items (history s) text (display_count s) =
    show_items (history s) "" (display_count s) /\
  refresh_history_list (set_search_bar text s) =
    with_search_bar text (refresh_history_list (set_search_bar "" s)) /\
  load_more_btn (final (refresh_history_list (set_search_bar text s))) =
    load_more_btn (final (refresh_history_list (set_search_bar "" s))) /\
  delete_callback view_idx (set_search_bar text s) =
    with_search_bar text (delete_callback view_idx (set_search_bar "" s)).
Proof.
  intros H.
  assert (Hq : query_of text = query_of "")
    by (rewrite (query_of_blank text H), query_of_nil; reflexivity).
  split; [exact show_items_stripped_lowered|].
  split; [exact show_items_strips_and_lowers|].
  split; [exact strip_all_space_any|].
  split; [exact (query_of_blank text H)|].
  split; [exact Hq|].
  split; [apply show_items_query_of, Hq|].
  split; [apply refresh_query_of, Hq|].
  split; [|apply delete_query_of, Hq].
  rewrite (refresh_query_of text "" s Hq).
  destruct (refresh_history_list (set_search_bar "" s)) as [[]|? []];
    reflexivity.
Qed.

End SearchText.

(* ===================================================================== *)
(** ** The page and the load-more button *)
(* ===================================================================== *)

Section Pagination.

Context {R : Runtime}.


(** The count 0 shows the whole list, whatever the list: [-0] is [0]. *)
Lemma show_items_count_zero (l : list json) :
  show_items (JArr l) "" 0 = Ok (rev l).
Proof.
  unfold show_items. rewrite query_of_nil. cbn [Py.sequence bind PyStr.truthy].
  fold (page l 0). now rewrite page_zero.
Qed.

(** The visibility of the load-more button after a refresh, as a function
    of the record list, the search text and the count. *)
Lemma load_more_records (s : state) (l : list json) :
  history s = JArr l ->
  records l ->
  load_more_btn (final (refresh_history_list s)) =
    match view l (search_bar s) (display_count s) with
    | [] => false
    | _ => (display_count s <? Z.of_nat (length l))
           && negb (PyStr.truthy (query_of (search_bar s)))
    end.
Proof.
  intros Hh Hl. rewrite (refresh_records s l Hh Hl).
  destruct (view l (search_bar s) (display_count s)); reflexivity.
Qed.


End Pagination.

(* ===================================================================== *)
(** ** The search filter *)
(* ===================================================================== *)

Section Filter.

Context {R : Runtime}.

Lemma filter_sublist (f : json -> bool) (l : list json) :
  sublist (List.filter f l) l.
Proof.
  induction l as [|x l IH]; cbn [List.filter].
  - constructor.
  - destruct (f x); now constructor.
Qed.

Lemma matches_spec (q : string) (item : json) :
  matches q item = true <->
  PyStr.substring_of q (str_lower (url_of item)) \/
  PyStr.substring_of q (str_lower (status_of item)).
Proof.
  unfold matches. now rewrite orb_true_iff, !contains_spec.
Qed.

(** C6, as the code has it. On a list of records the view is computed
    without an exception; it is a subsequence of the newest-first page, in
    the order of the page; and every record in it has the search text,
    stripped and then lowered, as a substring of its lowered url or of its
    lowered status, an absent field counting as the empty string. *)
Theorem show_items_filter_sound (l : list json) (text : string) (count : Z) :
  records l ->
  exists items : list json,
    show_items (JArr l) text count = Ok items /\
    sublist items (page l count) /\
    Forall (fun item =>
              PyStr.substring_of (str_lower (str_strip text))
                (str_lower (url_of item)) \/
              PyStr.substring_of (str_lower (str_strip text))
                (str_lower (status_of item))) items.
Proof.
  intros Hl. exists (view l text count).
  split; [apply show_items_records, Hl|].
  unfold view. fold (query_of text).
  destruct (PyStr.truthy (query_of text)) eqn:Hq.
  - split; [apply filter_sublist|].
    apply Forall_forall. intros item Hi.
    apply list_elem_of_In, filter_In in Hi as [_ Hm].
    now apply matches_spec.
  - split; [reflexivity|].
    apply truthy_false_iff in Hq. rewrite Hq.
    apply Forall_forall. intros item _. left.
    apply contains_spec, contains_empty.
Qed.

(** In any runtime the search text [" a"] keeps the record with url ["a"],
    while the lowered search text, with its blank, is a substring of
    neither field. *)
Lemma unstripped_text_not_substring :
  show_items (JArr [record "a" "ok"]) " a" 15 = Ok [record "a" "ok"] /\
  ~ (PyStr.substring_of (str_lower " a")
       (str_lower (url_of (record "a" "ok"))) \/
     PyStr.substring_of (str_lower " a")
       (str_lower (status_of (record "a" "ok")))).
Proof.
  split.
  - rewrite show_items_stripped_lowered by (repeat constructor).
    run_store. ascii_text. reflexivity.
  - rewrite <- !contains_spec. run_store. ascii_text.
    intros [H|H]; discriminate.
Qed.

End Filter.

Section FilterExamples.

#[local] Existing Instance reference_runtime.

Lemma whitespace_search_same_as_empty_witness :
  str_strip "  " = EmptyString /\
  show_items (JArr [record "a" "ok"; record "b" "no"]) "  " 1 =
    show_items (JArr [record "a" "ok"; record "b" "no"]) "" 1.
Proof.
  split; [reflexivity|].
  refine (proj1 (proj2 (proj2 (proj2 (proj2 (proj2
    (whitespace_search_same_as_empty "  " 0
       (mkState (JArr [record "a" "ok"; record "b" "no"]) 1 "" [] false true ∅)
       eq_refl))))))).
Defined.

Lemma show_items_filter_sound_witness :
  exists items : list json,
    show_items (JArr [record "http://x/A" "Complete!"; record "b" "no"])
      " XA" 15 = Ok items /\
    sublist items
      (page [record "http://x/A" "Complete!"; record "b" "no"] 15) /\
    Forall (fun item =>
              PyStr.substring_of (str_lower (str_strip " XA"))
                (str_lower (url_of item)) \/
              PyStr.substring_of (str_lower (str_strip " XA"))
                (str_lower (status_of item))) items.
Proof.
  apply (show_items_filter_sound
           [record "http://x/A" "Complete!"; record "b" "no"] " XA" 15).
  repeat constructor.
Defined.

(** C6 as stated fails: the search text [" a"] keeps the record with url
    ["a"], while the lowered search text, with its blank, is a substring of
    neither field. *)
Lemma show_items_unstripped_text_not_substring :
  show_items (JArr [record "a" "ok"]) " a" 15 = Ok [record "a" "ok"] /\
  ~ (PyStr.substring_of (str_lower " a")
       (str_lower (url_of (record "a" "ok"))) \/
     PyStr.substring_of (str_lower " a")
       (str_lower (status_of (record "a" "ok")))).
Proof. exact unstripped_text_not_substring. Qed.

End FilterExamples.

(* ===================================================================== *)
(** ** Deletion *)
(* ===================================================================== *)

Section Deletion.

Context {R : Runtime}.

Lemma get_none_record_url (item : json) :
  is_record item = true ->
  Py.get item "url" JNull = Ok (value_or_none (field "url" item)).
Proof.
  destruct item as [| | | | |?|o]; try discriminate.
  unfold is_record, field_ok, field. cbn [Py.get].
  intros H. apply andb_true_iff in H as [Hu _].
  destruct (Py.dict_get "url" o) as [[]|]; (reflexivity || discriminate).
Qed.

Lemma get_none_record_status (item : json) :
  is_record item = true ->
  Py.get item "status" JNull = Ok (value_or_none (field "status" item)).
Proof.
  destruct item as [| | | | |?|o]; try discriminate.
  unfold is_record, field_ok, field. cbn [Py.get].
  intros H. apply andb_true_iff in H as [_ Hs].
  destruct (Py.dict_get "status" o) as [[]|]; (reflexivity || discriminate).
Qed.

Lemma eq_value_or_none (a b : option string) :
  py_eq (value_or_none a) (value_or_none b) = bool_decide (a = b).
Proof.
  destruct a as [x|], b as [y|]; cbn [value_or_none].
  - rewrite eq_str. destruct (String.eqb_spec x y) as [->|Hne].
    + now rewrite bool_decide_eq_true_2.
    + rewrite bool_decide_eq_false_2; [reflexivity | congruence].
  - rewrite eq_str_none. now rewrite bool_decide_eq_false_2.
  - rewrite eq_none_str. now rewrite bool_decide_eq_false_2.
  - rewrite eq_none. now rewrite bool_decide_eq_true_2.
Qed.

(** On records the scan of [delete_callback] never raises and removes the
    first item with the key of [to_del]. *)
Lemma pop_first_match_records (to_del : json) (l : list json) :
  is_record to_del = true ->
  records l ->
  pop_first_match to_del l = Ok (remove_first (same_key to_del) l).
Proof.
  intros Ht. induction 1 as [|h l Hh Hl IH]; [reflexivity|].
  cbn [pop_first_match remove_first].
  rewrite (get_none_record_url h Hh), (get_none_record_url to_del Ht).
  cbn [bind]. rewrite eq_value_or_none.
  unfold same_key, key_of.
  destruct (decide (field "url" h = field "url" to_del)) as [Eu|Nu].
  - rewrite (bool_decide_eq_true_2 _ Eu).
    rewrite (get_none_record_status h Hh), (get_none_record_status to_del Ht).
    cbn [bind]. rewrite eq_value_or_none.
    destruct (decide (field "status" h = field "status" to_del)) as [Es|Ns].
    + rewrite (bool_decide_eq_true_2 _ Es).
      rewrite bool_decide_eq_true_2 by congruence. reflexivity.
    + rewrite (bool_decide_eq_false_2 _ Ns).
      rewrite bool_decide_eq_false_2 by congruence.
      rewrite IH. reflexivity.
  - rewrite (bool_decide_eq_false_2 _ Nu). cbn [bind].
    rewrite bool_decide_eq_false_2 by congruence.
    rewrite IH. reflexivity.
Qed.

(** [remove_first] splits the list at the first hit. *)
Lemma remove_first_split (test : json -> bool) (l : list json) (x : json) :
  In x l -> test x = true ->
  exists (pre : list json) (h : json) (post : list json),
    l = (pre ++ h :: post)%list /\
    test h = true /\
    Forall (fun y => test y = false) pre /\
    remove_first test l = (pre ++ post)%list.
Proof.
  induction l as [|y l IH]; intros Hin Hx; [destruct Hin|].
  cbn [remove_first]. destruct (test y) eqn:Hy.
  - exists [], y, l. repeat split; auto.
  - destruct Hin as [->|Hin]; [congruence|].
    destruct (IH Hin Hx) as (pre & h & post & -> & Hh & Hpre & Hr).
    exists (y :: pre), h, post. repeat split; auto.
    cbn [app]. now rewrite Hr.
Qed.

Lemma in_page (l : list json) (count : Z) (x : json) :
  In x (page l count) -> In x l.
Proof.
  unfold page, Py.slice_from. intros H. apply in_rev in H.
  rewrite <- (firstn_skipn (Py.slice_start (length l) (- count)) l).
  apply in_or_app. now right.
Qed.

Lemma in_view (l : list json) (text : string) (count : Z) (x : json) :
  In x (view l text count) -> In x l.
Proof.
  unfold view. destruct (PyStr.truthy (query_of text)); intros H.
  - apply filter_In in H as [H _]. now apply in_page in H.
  - now apply in_page in H.
Qed.

Lemma same_key_refl (x : json) : same_key x x = true.
Proof. unfold same_key. now apply bool_decide_eq_true_2. Qed.

Lemma same_key_true (a b : json) : same_key a b = true <-> key_of a = key_of b.
Proof. unfold same_key. apply bool_decide_eq_true. Qed.

Lemma same_key_false (a b : json) : same_key a b = false <-> key_of a <> key_of b.
Proof. unfold same_key. apply bool_decide_eq_false. Qed.

Lemma records_without (pre post : list json) (h : json) :
  records (pre ++ h :: post) -> records (pre ++ post).
Proof.
  unfold records. intros Hl.
  apply Forall_app in Hl as [H1 H2]. apply Forall_app. split; [exact H1|].
  now apply Forall_cons in H2 as [_ H2].
Qed.

(** [delete_callback] with an index in the bounds of the view. *)
Lemma delete_in_bounds (s : state) (l : list json) (view_idx : Z) :
  history s = JArr l ->
  records l ->
  0 <= view_idx <
    Z.of_nat (length (view l (search_bar s) (display_count s))) ->
  exists (to_del : json) (pre : list json) (h : json) (post : list json)
         (s' : state),
    view l (search_bar s) (display_count s) !! Z.to_nat view_idx
      = Some to_del /\
    l = (pre ++ h :: post)%list /\
    key_of h = key_of to_del /\
    Forall (fun x => key_of x <> key_of to_del) pre /\
    delete_callback view_idx s = Done s' /\
    s' = final (refresh_history_list
           (set_display_count
              (Z.min (display_count s) (Z.of_nat (length (pre ++ post))))
              (save_history (set_history (JArr (pre ++ post)) s)))).
Proof.
  intros Hh Hl Hb.
  set (v := view l (search_bar s) (display_count s)) in *.
  assert (Hv : show_items (history s) (search_bar s) (display_count s) = Ok v)
    by (rewrite Hh; apply show_items_records, Hl).
  destruct (lookup_lt_is_Some_2 v (Z.to_nat view_idx)) as [to_del Hd];
    [lia|].
  assert (Hin : In to_del l).
  { apply (in_view l (search_bar s) (display_count s)).
    apply list_elem_of_In, (list_elem_of_lookup_2 _ _ _ Hd). }
  assert (Ht : is_record to_del = true).
  { unfold records in Hl. rewrite Forall_forall in Hl.
    apply Hl, list_elem_of_In, Hin. }
  destruct (remove_first_split (same_key to_del) l to_del Hin
              (same_key_refl to_del))
    as (pre & h & post & El & Hk & Hpre & Hr).
  assert (Hl' : records (pre ++ post))
    by (apply (records_without pre post h); now rewrite <- El).
  set (s1 := set_display_count
               (Z.min (display_count s) (Z.of_nat (length (pre ++ post))))
               (save_history (set_history (JArr (pre ++ post)) s))).
  assert (Hdel : delete_callback view_idx s = refresh_history_list s1).
  { unfold delete_callback. rewrite Hv.
    replace ((0 <=? view_idx) && (view_idx <? Z.of_nat (length v)))
      with true by (symmetry; apply andb_true_iff; split;
                    [apply Z.leb_le | apply Z.ltb_lt]; lia).
    rewrite Hd, Hh. cbn [Py.iter bind].
    rewrite (pop_first_match_records to_del l Ht Hl), Hr. reflexivity. }
  assert (Hs1 : history s1 = JArr (pre ++ post)) by reflexivity.
  pose proof (refresh_records s1 (pre ++ post) Hs1 Hl') as Hr1.
  exists to_del, pre, h, post, (final (refresh_history_list s1)).
  split; [exact Hd|]. split; [exact El|].
  split; [symmetry; now apply same_key_true|].
  split.
  { eapply Forall_impl; [exact Hpre|].
    intros x Hx Hc. apply same_key_false in Hx. congruence. }
  split; [|reflexivity].
  rewrite Hdel, Hr1. reflexivity.
Qed.

(** [delete_callback] with an index out of the bounds of the view. *)
Lemma delete_out_of_bounds (s : state) (l : list json) (view_idx : Z) :
  history s = JArr l ->
  records l ->
  ~ (0 <= view_idx <
       Z.of_nat (length (view l (search_bar s) (display_count s)))) ->
  delete_callback view_idx s = Done s.
Proof.
  intros Hh Hl Hb. unfold delete_callback.
  rewrite Hh, (show_items_records l _ _ Hl).
  replace ((0 <=? view_idx) &&
           (view_idx <? Z.of_nat (length (view l (search_bar s) (display_count s)))))
    with false; [reflexivity|].
  symmetry. apply andb_false_iff.
  destruct (Z.leb_spec 0 view_idx); [|now left].
  right. apply Z.ltb_ge. lia.
Qed.

(** What [save_history] followed by the clamp and the refresh leaves in
    the state. *)
Lemma saved_frame (s : state) (v : json) (n : Z) :
  let s' := final (refresh_history_list
              (set_display_count n (save_history (set_history v s)))) in
  history s' = v /\ display_count s' = n /\ search_bar s' = search_bar s /\
  disk s' = <[history_path := json_dump v]> (disk s).
Proof.
  intros s'.
  destruct (refresh_frame
    (set_display_count n (save_history (set_history v s))))
    as (F1 & F2 & F3 & F4).
  fold s' in F1, F2, F3, F4. rewrite F1, F2, F3, F4.
  repeat split; reflexivity.
Qed.

(** C1. On a list of records, with [v] the filtered view for the search
    text and the count of the state: the view is what the code computes;
    when [view_idx] is in bounds for it, [delete_callback] returns, having
    removed from the stored list the first record, from index 0 upwards,
    whose url and status are those of the record at [view_idx] of the view,
    written the new list to the history file, and set the count to the
    minimum of the count and the new length; when [view_idx] is out of
    bounds, negative included, nothing changes. What the file holds is
    what [json.dump] leaves there, which is the text of the new list when
    that text can be encoded. *)
Theorem delete_callback_spec (s : state) (l : list json) (view_idx : Z) :
  history s = JArr l ->
  records l ->
  let v := view l (search_bar s) (display_count s) in
  show_items (history s) (search_bar s) (display_count s) = Ok v /\
  (0 <= view_idx < Z.of_nat (length v) ->
   exists (to_del : json) (pre : list json) (h : json) (post : list json)
          (s' : state),
     v !! Z.to_nat view_idx = Some to_del /\
     l = (pre ++ h :: post)%list /\
     key_of h = key_of to_del /\
     Forall (fun x => key_of x <> key_of to_del) pre /\
     delete_callback view_idx s = Done s' /\
     history s' = JArr (pre ++ post) /\
     disk s' = <[history_path := json_dump (JArr (pre ++ post))]> (disk s) /\
     (Json.tame (JArr (pre ++ post)) = true ->
      Utf8.valid (Json.dumps (JArr (pre ++ post))) = true ->
      disk s' = <[history_path := Json.dumps (JArr (pre ++ post))]> (disk s)) /\
     display_count s' =
       Z.min (display_count s) (Z.of_nat (length (pre ++ post)))) /\
  (~ (0 <= view_idx < Z.of_nat (length v)) ->
   delete_callback view_idx s = Done s).
Proof.
  intros Hh Hl v.
  split; [rewrite Hh; apply show_items_records, Hl|]. split.
  - intros Hb.
    destruct (delete_in_bounds s l view_idx Hh Hl Hb)
      as (to_del & pre & h & post & s' & Hd & El & Hk & Hpre & Hdel & Es').
    destruct (saved_frame s (JArr (pre ++ post))
                (Z.min (display_count s) (Z.of_nat (length (pre ++ post)))))
      as (F1 & F2 & _ & F4).
    rewrite <- Es' in F1, F2, F4.
    exists to_del, pre, h, post, s'.
    repeat (split; [assumption|]).
    split; [|exact F2].
    intros Ht Hu. now rewrite F4, (dump_tame _ Ht Hu).
  - apply delete_out_of_bounds; assumption.
Qed.

End Deletion.

Section DeletionExamples.

#[local] Existing Instance reference_runtime.

Lemma delete_callback_spec_witness :
  exists (to_del : json) (pre : list json) (h : json) (post : list json)
         (s' : state),
    view [record "a" "ok"; record "b" "no"; record "a" "ok"] "" 15
      !! Z.to_nat 0 = Some to_del /\
    [record "a" "ok"; record "b" "no"; record "a" "ok"]
      = (pre ++ h :: post)%list /\
    key_of h = key_of to_del /\
    Forall (fun x => key_of x <> key_of to_del) pre /\
    delete_callback 0
      (mkState (JArr [record "a" "ok"; record "b" "no"; record "a" "ok"])
         15 "" [] false true ∅) = Done s' /\
    history s' = JArr (pre ++ post) /\
    disk s' = <[history_path := json_dump (JArr (pre ++ post))]> ∅ /\
    (Json.tame (JArr (pre ++ post)) = true ->
     Utf8.valid (Json.dumps (JArr (pre ++ post))) = true ->
     disk s' = <[history_path := Json.dumps (JArr (pre ++ post))]> ∅) /\
    display_count s' = Z.min 15 (Z.of_nat (length (pre ++ post))).
Proof.
  apply (proj1 (proj2 (delete_callback_spec
    (mkState (JArr [record "a" "ok"; record "b" "no"; record "a" "ok"])
       15 "" [] false true ∅)
    [record "a" "ok"; record "b" "no"; record "a" "ok"] 0
    eq_refl ltac:(repeat constructor)))).
  split; [lia | reflexivity].
Defined.

(** Two records with the same url and status, told apart by a third key:
    the newest is the row clicked, the oldest is the one removed. *)
Example delete_duplicate_removes_oldest :
  history (final (delete_callback 0
    (mkState
       (JArr [JObj [("url", JStr "a"); ("status", JStr "ok"); ("n", JInt 1)];
              record "b" "no";
              JObj [("url", JStr "a"); ("status", JStr "ok"); ("n", JInt 2)]])
       15 "" [] false true ∅)))
  = JArr [record "b" "no";
          JObj [("url", JStr "a"); ("status", JStr "ok"); ("n", JInt 2)]].
Proof. reflexivity. Qed.

(** The example of the specification: three records, the newest deleted. *)
Example delete_newest_of_three :
  history (final (delete_callback 0
    (mkState (JArr [record "a" "s1"; record "b" "s2"; record "c" "s3"])
       15 "" [] false true ∅)))
  = JArr [record "a" "s1"; record "b" "s2"].
Proof. reflexivity. Qed.

End DeletionExamples.

(* ===================================================================== *)
(** ** Loading *)
(* ===================================================================== *)

Section Loading.

Context {R : Runtime}.

Lemma refresh_empty_history (s : state) :
  history s = JArr [] ->
  refresh_history_list s =
    Done (set_load_more_btn false (set_empty_label true (set_table [] s))).
Proof.
  intros H. rewrite (refresh_records s [] H); [|constructor].
  unfold view. rewrite page_nil. cbn [List.filter].
  now destruct (PyStr.truthy _).
Qed.

(** [load_history] when the history file is there and is read. *)
Lemma load_history_read (s : state) (content : string) (v : json) :
  disk s !! history_path = Some content ->
  json_loads content = Some v ->
  load_history s =
    refresh_history_list
      (set_display_count MAX_VISIBLE (set_history v s)).
Proof.
  intros Hd Hp. destruct s as [h dc sb tb el lm d]. state_simpl.
  unfold load_history. state_simpl. rewrite Hd, Hp. reflexivity.
Qed.

(** [load_history] without a history file it can read. *)
Lemma load_history_unread (s : state) :
  (disk s !! history_path = None \/
   exists content : string,
     disk s !! history_path = Some content /\ json_loads content = None) ->
  load_history s =
    refresh_history_list
      (set_display_count MAX_VISIBLE (set_history (JArr []) s)).
Proof.
  intros H. destruct s as [h dc sb tb el lm d]. state_simpl.
  unfold load_history. state_simpl.
  destruct H as [-> | (content & -> & ->)]; reflexivity.
Qed.

(** The part of C5 that holds: with the history file missing, or with a
    content that is not read, [load_history] returns with an empty record
    list and the count back at [MAX_VISIBLE]. *)
Lemma load_history_recovers (s : state) :
  (disk s !! history_path = None \/
   exists content : string,
     disk s !! history_path = Some content /\ json_loads content = None) ->
  exists s' : state,
    load_history s = Done s' /\
    history s' = JArr [] /\ display_count s' = MAX_VISIBLE /\
    table s' = [] /\ empty_label s' = true /\ load_more_btn s' = false /\
    search_bar s' = search_bar s /\ disk s' = disk s.
Proof.
  intros H. rewrite (load_history_unread s H).
  rewrite refresh_empty_history by reflexivity.
  eexists. split; [reflexivity|]. destruct s. state_simpl. auto 10.
Qed.

(** What [__init__] starts from. *)
Lemma init_read (d : gmap string string) (content : string) (v : json) :
  d !! history_path = Some content ->
  json_loads content = Some v ->
  init d = refresh_history_list (mkState v MAX_VISIBLE "" [] false true d).
Proof.
  intros Hd Hp. unfold init.
  now rewrite (load_history_read
                 (mkState (JArr []) MAX_VISIBLE "" [] false true d)
                 content v Hd Hp).
Qed.

(** A text of ASCII characters that [Json.parse] reads as a value without
    floats is read so by every runtime. *)
Lemma loads_ascii (content : string) (v : json) :
  PyStr.is_ascii content = true ->
  Json.parse content = Some v ->
  Json.tame v = true ->
  json_loads content = Some v.
Proof. intros Ha. apply loads_tame, valid_ascii, Ha. Qed.

(** C5. The specification lets no operation fault, whatever the history
    file holds. With the file content [[1]], which parses, [load_history]
    keeps the parsed list and the refresh it ends with calls [get] on the
    number: [AttributeError] leaves [load_history], and [__init__] with it. *)
Theorem load_history_raises_on_non_record :
  exists s : state,
    init (<[history_path := "[1]"]> ∅) = Raised AttributeError s /\
    history s = JArr [JInt 1].
Proof.
  rewrite (init_read _ "[1]" (JArr [JInt 1]) (lookup_insert_eq _ _ _)
             (loads_ascii "[1]" (JArr [JInt 1]) eq_refl eq_refl eq_refl)).
  generalize (<[history_path := "[1]"]> (∅ : gmap string string)).
  intros d. eexists. unfold refresh_history_list, show_items.
  state_simpl. rewrite query_of_nil. split; reflexivity.
Qed.

(** A content that is a JSON object cannot be sliced. *)
Example load_history_raises_on_object :
  exists s : state,
    init (<[history_path := "{}"]> ∅) = Raised DictSliceError s /\
    history s = JObj [].
Proof.
  rewrite (init_read _ "{}" (JObj []) (lookup_insert_eq _ _ _)
             (loads_ascii "{}" (JObj []) eq_refl eq_refl eq_refl)).
  generalize (<[history_path := "{}"]> (∅ : gmap string string)).
  intros d. eexists. split; reflexivity.
Qed.

(** C4, as the code has it. When the history file is read, [load_history]
    stores the value read as it is: nothing is added to the records. If
    the value is a list of records, [load_history] returns and the table
    shows the view of that list. It is on reading that an absent url or
    status counts as the empty string. *)
Theorem load_history_stores_parsed_value
    (s : state) (content : string) (v : json) :
  disk s !! history_path = Some content ->
  json_loads content = Some v ->
  history (final (load_history s)) = v /\
  display_count (final (load_history s)) = MAX_VISIBLE /\
  (forall l : list json, v = JArr l -> records l ->
     exists s' : state,
       load_history s = Done s' /\
       table s' = map row_of (view l (search_bar s) MAX_VISIBLE)) /\
  (forall item : json, is_record item = true ->
     (field "url" item = None ->
        Py.get item "url" (JStr "") = Ok (JStr "")) /\
     (field "status" item = None ->
        Py.get item "status" (JStr "") = Ok (JStr ""))).
Proof.
  intros Hd Hp. rewrite (load_history_read s content v Hd Hp).
  set (s1 := set_display_count MAX_VISIBLE (set_history v s)).
  destruct (refresh_frame s1) as (F1 & F2 & _).
  split; [exact F1|]. split; [exact F2|]. split.
  - intros l -> Hl. apply (refresh_records_done s1 l eq_refl Hl).
  - intros item Hi. split; intros Hf.
    + rewrite (get_record_url item Hi). unfold url_of. now rewrite Hf.
    + rewrite (get_record_status item Hi). unfold status_of. now rewrite Hf.
Qed.

(** In any runtime the file content [[{}]] loads as one record that has
    neither field. *)
Lemma absent_fields_stay_absent :
  exists s : state,
    init (<[history_path := "[{}]"]> ∅) = Done s /\
    history s = JArr [JObj []] /\
    ~ Forall (fun item => is_full_record item = true) [JObj []].
Proof.
  rewrite (init_read _ "[{}]" (JArr [JObj []]) (lookup_insert_eq _ _ _)
             (loads_ascii "[{}]" (JArr [JObj []]) eq_refl eq_refl eq_refl)).
  generalize (<[history_path := "[{}]"]> (∅ : gmap string string)).
  intros d.
  erewrite (refresh_records _ [JObj []]);
    [| reflexivity | repeat constructor].
  eexists. split; [reflexivity|]. split.
  - destruct (view _ _ _); reflexivity.
  - intros H. apply Forall_cons in H as [H _]. discriminate.
Qed.

End Loading.

Section LoadingExamples.

#[local] Existing Instance reference_runtime.

Lemma load_history_stores_parsed_value_witness :
  history (final (load_history
    (mkState (JArr []) 3 "" [] false true
       (<[history_path := url_only_file]> ∅))))
  = JArr [JObj [("url", JStr "a")]].
Proof.
  refine (proj1 (load_history_stores_parsed_value
    (mkState (JArr []) 3 "" [] false true
       (<[history_path := url_only_file]> ∅))
    url_only_file (JArr [JObj [("url", JStr "a")]]) _ _));
    vm_compute; reflexivity.
Defined.

(** C4 as stated fails: the file content [[{}]] loads as one record that
    has neither field. *)
Lemma load_history_keeps_absent_fields :
  exists s : state,
    init (<[history_path := "[{}]"]> ∅) = Done s /\
    history s = JArr [JObj []] /\
    ~ Forall (fun item => is_full_record item = true) [JObj []].
Proof. exact absent_fields_stay_absent. Qed.

End LoadingExamples.

(* ===================================================================== *)
(** ** Export *)
(* ===================================================================== *)

Section ExportFile.

Context {R : Runtime}.

(** After an ASCII text, what follows decides. *)
Lemma valid_after_ascii (a b : string) :
  PyStr.is_ascii a = true -> Utf8.valid (a ++ b) = Utf8.valid b.
Proof.
  intros H. unfold Utf8.valid. now rewrite run_app, (run_ascii a H).
Qed.

(** Two texts with an ASCII character between them can be encoded when
    each of them can. *)
Lemma valid_around_ascii (a b : string) (c : ascii) :
  (nat_of_ascii c <? 128)%nat = true ->
  Utf8.valid (a ++ String c b) = Utf8.valid a && Utf8.valid b.
Proof.
  intros H. unfold Utf8.valid. rewrite run_app. cbn [Utf8.run].
  rewrite (step_low _ c H).
  destruct (Utf8.run Utf8.Start a); rewrite ?run_reject; reflexivity.
Qed.

(** The block of a record can be encoded exactly when its two texts can. *)
Lemma valid_spec_block (item : json) :
  Utf8.valid (spec_block item) = writable item.
Proof.
  unfold spec_block, writable.
  rewrite (valid_after_ascii "URL: ") by reflexivity.
  rewrite valid_around_ascii by reflexivity.
  rewrite (valid_after_ascii "Status: ") by reflexivity.
  rewrite valid_around_ascii by reflexivity.
  now rewrite andb_true_r.
Qed.

Lemma export_block_record (item : json) :
  is_record item = true -> export_block item = Ok (spec_block item).
Proof.
  intros H. unfold export_block, spec_block.
  rewrite (get_record_url item H), (get_record_status item H).
  cbn [bind]. now rewrite !str_of_str.
Qed.

Lemma write_blocks_app (l1 l2 : list json) (written : string) :
  records l1 ->
  Forall (fun item => writable item = true) l1 ->
  write_blocks (l1 ++ l2) written =
    write_blocks l2 (written ++ spec_export l1).
Proof.
  intros H. revert written.
  induction H as [|item l Hi Hl IH]; intros written Hw;
    cbn [write_blocks spec_export app].
  - now rewrite str_app_nil_r.
  - apply Forall_cons in Hw as [Hw1 Hw2].
    rewrite (export_block_record item Hi), valid_spec_block, Hw1, IH
      by exact Hw2.
    now rewrite str_app_assoc.
Qed.

Lemma write_blocks_records (l : list json) (written : string) :
  records l ->
  Forall (fun item => writable item = true) l ->
  write_blocks l written = ((written ++ spec_export l)%string, Finished).
Proof.
  intros H Hw. rewrite <- (app_nil_r l) at 1.
  now rewrite (write_blocks_app l [] written H Hw).
Qed.

Lemma export_history_chosen (s : state) (l : list json) (path : string) :
  history s = JArr l ->
  path <> EmptyString ->
  export_history path s =
    match write_blocks l "" with
    | (text, Finished) =>
        (set_disk (<[realpath path := text]> (disk s)) s, Some Information)
    | (text, Failed) =>
        (set_disk (<[realpath path := text]> (disk s)) s, Some Warning)
    end.
Proof.
  intros Hh Hp. unfold export_history. destruct path; [congruence|].
  cbn [PyStr.truthy negb]. rewrite Hh. reflexivity.
Qed.

(** Every record can be written: the file holds every block. *)
Lemma export_writable (s : state) (l : list json) (path : string) :
  history s = JArr l ->
  records l ->
  Forall (fun item => writable item = true) l ->
  path <> EmptyString ->
  export_history path s =
    (set_disk (<[realpath path := spec_export l]> (disk s)) s,
     Some Information).
Proof.
  intros Hh Hl Hw Hp. rewrite (export_history_chosen s l path Hh Hp).
  now rewrite (write_blocks_records l "" Hl Hw), str_app_nil_l.
Qed.

(** The export stops at the first item it cannot write: a record with a
    text that has no encoding, or an item that is no dict. *)
Lemma export_stops (s : state) (l1 l2 : list json) (x : json) (path : string) :
  history s = JArr (l1 ++ x :: l2) ->
  records l1 ->
  Forall (fun item => writable item = true) l1 ->
  (is_record x = true /\ writable x = false) \/ (forall o, x <> JObj o) ->
  path <> EmptyString ->
  export_history path s =
    (set_disk (<[realpath path := spec_export l1]> (disk s)) s,
     Some Warning).
Proof.
  intros Hh Hl Hw Hx Hp. rewrite (export_history_chosen s _ path Hh Hp).
  rewrite (write_blocks_app l1 (x :: l2) "" Hl Hw), str_app_nil_l.
  cbn [write_blocks]. destruct Hx as [[Hr Hu] | Hbad].
  - now rewrite (export_block_record x Hr), valid_spec_block, Hu.
  - assert (E : export_block x = Raise AttributeError).
    { destruct x; try reflexivity. now destruct (Hbad members). }
    now rewrite E.
Qed.

(** C8, as the code has it. On a list of records and with a file name
    chosen, [export_history] writes to that file one block per record, in
    stored order, oldest first: the line [URL: ] with the url, the line
    [Status: ] with the status, and an empty line. When every url and
    status can be encoded as UTF-8, the file holds the blocks of all the
    records and the information box is shown; at the first record with a
    text that cannot be encoded, the export stops with the warning box and
    the file holds the blocks of the records before that one. Nothing else
    changes. For the single record with url [a] and status [ok] the text
    is exactly the three lines [URL: a], [Status: ok] and an empty one. *)
Theorem export_history_spec (s : state) (l : list json) (path : string) :
  history s = JArr l ->
  records l ->
  path <> EmptyString ->
  (Forall (fun item => writable item = true) l ->
   export_history path s =
     (set_disk (<[realpath path := spec_export l]> (disk s)) s,
      Some Information)) /\
  (forall (l1 l2 : list json) (x : json),
     l = (l1 ++ x :: l2)%list ->
     Forall (fun item => writable item = true) l1 ->
     writable x = false ->
     export_history path s =
       (set_disk (<[realpath path := spec_export l1]> (disk s)) s,
        Some Warning)) /\
  (forall (item : json) (rest : list json),
     spec_export (item :: rest) =
       ("URL: " ++ url_of item ++ String Json.LF
          ("Status: " ++ status_of item ++ String Json.LF
             (String Json.LF (spec_export rest))))%string) /\
  spec_export [] = EmptyString /\
  write_blocks [record "a" "ok"] "" = ("URL: a
Status: ok

", Finished).
Proof.
  intros Hh Hl Hp. split; [|split; [|split; [|split]]].
  - intros Hw. now apply export_writable.
  - intros l1 l2 x El Hw Hx. subst l.
    apply Forall_app in Hl as [Hl1 Hl2].
    apply Forall_cons in Hl2 as [Hx1 _].
    apply (export_stops s l1 l2 x path); auto.
  - intros item rest. cbn [spec_export]. unfold spec_block.
    now rewrite !str_app_assoc, !str_app_cons, !str_app_assoc,
      !str_app_cons, str_app_nil_l.
  - reflexivity.
  - rewrite (write_blocks_records [record "a" "ok"] "")
      by (repeat constructor).
    reflexivity.
Qed.

(** The history file with the escape of a lone surrogate is read, by any
    runtime, as one record whose url is that surrogate. *)
Lemma loads_surrogate_file :
  json_loads surrogate_file = Some (JArr (plain [(lone_surrogate, "ok")])).
Proof.
  apply loads_ascii; vm_compute; reflexivity.
Qed.

Lemma init_surrogate_file :
  exists s : state,
    init (<[history_path := surrogate_file]> ∅) = Done s /\
    history s = JArr (plain [(lone_surrogate, "ok")]) /\
    disk s = <[history_path := surrogate_file]> ∅.
Proof.
  rewrite (init_read _ surrogate_file _ (lookup_insert_eq _ _ _)
             loads_surrogate_file).
  generalize (<[history_path := surrogate_file]> (∅ : gmap string string)).
  intros d.
  erewrite (refresh_records _ (plain [(lone_surrogate, "ok")]));
    [| reflexivity | repeat constructor].
  eexists. split; [reflexivity|].
  destruct (view _ _ _); split; reflexivity.
Qed.

(** In any runtime: started on that file, the widget holds the record,
    and an export ends with the warning box and an empty file. *)
Lemma lone_surrogate_not_exported :
  exists s : state,
    init (<[history_path := surrogate_file]> ∅) = Done s /\
    history s = JArr [record lone_surrogate "ok"] /\
    export_history "out.txt" s =
      (set_disk (<[realpath "out.txt" := ""]> (disk s)) s, Some Warning).
Proof.
  destruct init_surrogate_file as (s & Hi & Hh & _).
  exists s. split; [exact Hi|]. split; [exact Hh|].
  apply (export_stops s [] [] (record lone_surrogate "ok") "out.txt" Hh).
  - constructor.
  - constructor.
  - left. split; vm_compute; reflexivity.
  - discriminate.
Qed.

End ExportFile.

Section ExportExamples.

#[local] Existing Instance reference_runtime.

Lemma export_history_spec_witness :
  (disk (fst (export_history "out.txt"
     (mkState (JArr [record "a" "ok"; record "b" "no"]) 15 "" [] false true ∅))))
    !! "out.txt"
  = Some "URL: a
Status: ok

URL: b
Status: no

".
Proof.
  rewrite (proj1 (export_history_spec
    (mkState (JArr [record "a" "ok"; record "b" "no"]) 15 "" [] false true ∅)
    [record "a" "ok"; record "b" "no"] "out.txt"
    eq_refl ltac:(repeat constructor) ltac:(discriminate))
    ltac:(repeat constructor)).
  reflexivity.
Defined.

(** C8 as stated fails: the history file can hold the escape of a lone
    surrogate; the record loads, and its block cannot be written: the
    export ends with the warning box, and the file is empty. *)
Lemma export_history_warns_on_lone_surrogate :
  exists s : state,
    init (<[history_path := surrogate_file]> ∅) = Done s /\
    history s = JArr [record lone_surrogate "ok"] /\
    export_history "out.txt" s =
      (set_disk (<[realpath "out.txt" := ""]> (disk s)) s, Some Warning).
Proof. exact lone_surrogate_not_exported. Qed.

End ExportExamples.

(* ===================================================================== *)
(** ** Writing the history file and reading it back *)
(* ===================================================================== *)

Section Persistence.

Context {R : Runtime}.

Lemma records_plain (ps : list (string * string)) : records (plain ps).
Proof.
  unfold records, plain. apply Forall_forall. intros x Hx.
  apply list_elem_of_In, in_map_iff in Hx as (p & <- & _). reflexivity.
Qed.

Lemma writable_plain (ps : list (string * string)) :
  Forall (fun p => writable_pair p = true) ps ->
  Forall (fun item => writable item = true) (plain ps).
Proof.
  intros H. unfold plain. apply Forall_map.
  eapply Forall_impl; [exact H|]. intros [u st] Hp. exact Hp.
Qed.

(** What [save_history] leaves in the file for a list that can be
    written. *)
Lemma save_history_records (s : state) (ps : list (string * string)) :
  history s = JArr (plain ps) ->
  Forall (fun p => writable_pair p = true) ps ->
  save_history s =
    set_disk (<[history_path := Json.dumps (JArr (plain ps))]> (disk s)) s.
Proof.
  intros Hh Hw. unfold save_history. now rewrite Hh, (dump_records ps Hw).
Qed.

(** [load_history] on the file a session wrote. *)
Lemma load_history_records (s : state) (ps : list (string * string)) :
  disk s !! history_path = Some (Json.dumps (JArr (plain ps))) ->
  Forall (fun p => writable_pair p = true) ps ->
  exists s' : state,
    load_history s = Done s' /\
    history s' = JArr (plain ps) /\
    display_count s' = MAX_VISIBLE /\
    search_bar s' = search_bar s /\
    disk s' = disk s /\
    table s' = map row_of (view (plain ps) (search_bar s) MAX_VISIBLE).
Proof.
  intros Hd Hw.
  rewrite (load_history_read s _ _ Hd (loads_dumps_records ps Hw)).
  set (s1 := set_display_count MAX_VISIBLE (set_history (JArr (plain ps)) s)).
  destruct (refresh_records_done s1 (plain ps) eq_refl (records_plain ps))
    as (s' & Hr & Ht).
  destruct (refresh_frame s1) as (F1 & F2 & F3 & F4).
  rewrite Hr in F1, F2, F3, F4. cbn [final] in F1, F2, F3, F4.
  exists s'. split; [exact Hr|]. auto 10.
Qed.

(** C7, as the code has it. [save_history] followed by [load_history]
    gives back the record list when every url and status can be encoded as
    UTF-8: the text written to the history file is then read back as the
    same list, and [load_history] returns with it and with the count back
    at [MAX_VISIBLE]. *)
Theorem save_load_round_trip (s : state) (ps : list (string * string)) :
  history s = JArr (plain ps) ->
  Forall (fun p => writable_pair p = true) ps ->
  exists s' : state,
    load_history (save_history s) = Done s' /\
    history s' = JArr (plain ps) /\
    display_count s' = MAX_VISIBLE /\
    disk s' = disk (save_history s) /\
    disk s' = <[history_path := Json.dumps (JArr (plain ps))]> (disk s).
Proof.
  intros Hh Hw. rewrite (save_history_records s ps Hh Hw).
  destruct (load_history_records
    (set_disk (<[history_path := Json.dumps (JArr (plain ps))]> (disk s)) s)
    ps (lookup_insert_eq _ _ _) Hw) as (s' & Hl & H1 & H2 & _ & H4 & _).
  exists s'. split; [exact Hl|]. auto.
Qed.

(** In any runtime: the record read from the escape of a lone surrogate is
    lost by [save_history] followed by [load_history]. The dump stops at
    the text that cannot be encoded, and what it leaves in the file is not
    read back. *)
Lemma lone_surrogate_not_saved :
  exists s : state,
    init (<[history_path := surrogate_file]> ∅) = Done s /\
    history s = JArr (plain [(lone_surrogate, "ok")]) /\
    history (final (load_history (save_history s))) = JArr [].
Proof.
  destruct init_surrogate_file as (s & Hi & Hh & _).
  exists s. split; [exact Hi|]. split; [exact Hh|].
  destruct (load_history_recovers (save_history s)) as (s' & -> & H & _).
  - right. exists (json_dump (history s)).
    split; [apply lookup_insert_eq|].
    rewrite Hh. apply dump_unwritable; [apply tame_records|].
    vm_compute. reflexivity.
  - exact H.
Qed.

(** X2. Loading twice is loading once: a second [load_history], with the
    files untouched in between, ends as the first did, in the same state,
    whether the first returned or raised. *)
Theorem load_history_idempotent (s : state) :
  load_history (final (load_history s)) = load_history s.
Proof.
  destruct s as [h dc sb tb el lm d].
  unfold load_history. state_simpl.
  set (v := match d !! history_path with
            | Some content =>
                match json_loads content with
                | Some v => v
                | None => JArr []
                end
            | None => JArr []
            end).
  assert (E : forall h0 dc0 tb0 el0 lm0,
    (let s0 := mkState h0 dc0 sb tb0 el0 lm0 d in
     let s1 := set_history (JArr []) s0 in
     let s2 := match disk s1 !! history_path with
               | Some content =>
                   match json_loads content with
                   | Some v => set_history v s1
                   | None => set_history (JArr []) s1
                   end
               | None => s1
               end in
     set_display_count MAX_VISIBLE s2)
    = mkState v MAX_VISIBLE sb tb0 el0 lm0 d).
  { intros. subst v. state_simpl.
    destruct (d !! history_path) as [content|]; [|reflexivity].
    destruct (json_loads content); reflexivity. }
  pose proof (E h dc tb el lm) as E1. cbv zeta in E1. state_simpl.
  rewrite E1.
  pose proof (refresh_frame (mkState v MAX_VISIBLE sb tb el lm d))
    as (F1 & F2 & F3 & F4).
  destruct (final (refresh_history_list (mkState v MAX_VISIBLE sb tb el lm d)))
    as [h' dc' sb' tb' el' lm' d'] eqn:Ef.
  state_simpl. subst h' dc' sb' d'.
  pose proof (E v MAX_VISIBLE tb' el' lm') as E2. cbv zeta in E2. state_simpl.
  rewrite E2, <- Ef. apply refresh_idempotent.
Qed.

(** X3. [clear_history] after a Yes, from any state, even one whose history
    is not a list: it returns; the history is the empty list, the history
    file holds [[]], the table is empty, the empty-state label is shown and
    the load-more button hidden; the count is left as it was; and a
    [load_history] after it returns with the empty list. After a No, nothing
    changes. *)
Theorem clear_history_spec (s : state) :
  clear_history false s = Done s /\
  exists s' : state,
    clear_history true s = Done s' /\
    history s' = JArr [] /\
    disk s' = <[history_path := "[]"]> (disk s) /\
    table s' = [] /\ empty_label s' = true /\ load_more_btn s' = false /\
    display_count s' = display_count s /\
    search_bar s' = search_bar s /\
    exists s'' : state,
      load_history s' = Done s'' /\ history s'' = JArr [] /\ table s'' = [].
Proof.
  split; [reflexivity|].
  destruct s as [h dc sb tb el lm d].
  unfold clear_history.
  rewrite refresh_empty_history by reflexivity.
  eexists. split; [reflexivity|]. unfold save_history. state_simpl.
  rewrite dump_empty.
  repeat (split; [reflexivity|]).
  eexists. unfold load_history. state_simpl.
  rewrite lookup_insert_eq, loads_empty.
  state_simpl. rewrite refresh_empty_history by reflexivity.
  state_simpl. auto.
Qed.

End Persistence.

Section PersistenceExamples.

#[local] Existing Instance reference_runtime.

Lemma save_load_round_trip_witness :
  exists s' : state,
    load_history (save_history
      (mkState (JArr (plain [("http://x", "Complete!"); ("b", "no")]))
         3 "" [] false true ∅)) = Done s' /\
    history s' = JArr (plain [("http://x", "Complete!"); ("b", "no")]) /\
    display_count s' = MAX_VISIBLE.
Proof.
  destruct (save_load_round_trip
    (mkState (JArr (plain [("http://x", "Complete!"); ("b", "no")]))
       3 "" [] false true ∅)
    [("http://x", "Complete!"); ("b", "no")] eq_refl
    ltac:(repeat constructor)) as (s' & H1 & H2 & H3 & _).
  exists s'. auto.
Defined.

(** C7 as stated fails: the history file can hold the escape of a lone
    surrogate; the record loads, with a url that is a string, and
    [save_history] followed by [load_history] then gives the empty list. *)
Lemma save_load_loses_lone_surrogate :
  exists s : state,
    init (<[history_path := surrogate_file]> ∅) = Done s /\
    history s = JArr (plain [(lone_surrogate, "ok")]) /\
    history (final (load_history (save_history s))) = JArr [].
Proof. exact lone_surrogate_not_saved. Qed.

End PersistenceExamples.

(* ===================================================================== *)
(** ** Adding a record *)
(* ===================================================================== *)

Section Growth.

Context {R : Runtime}.

Lemma records_snoc (l : list json) (url status : string) :
  records l -> records (l ++ [record url status]).
Proof.
  intros H. apply Forall_app. split; [exact H|]. now constructor.
Qed.

(** The page of a list that has just grown by [r], under a positive count:
    [r] first. *)
Lemma page_snoc (l : list json) (r : json) (count : Z) :
  0 < count ->
  exists older : list json, page (l ++ [r]) count = r :: older.
Proof.
  intros H. unfold page, Py.slice_from.
  rewrite slice_start_positive by exact H.
  rewrite length_app. cbn [length].
  rewrite drop_app_le by lia.
  rewrite rev_app_distr. cbn [rev app]. eauto.
Qed.

Lemma add_to_history_list (s : state) (l : list json) (url status : string) :
  history s = JArr l ->
  add_to_history url status s =
    refresh_history_list
      (set_display_count
         (Z.min (display_count s + 1)
            (Z.of_nat (length (l ++ [record url status]))))
         (save_history (set_history (JArr (l ++ [record url status])) s))).
Proof.
  intros Hh. unfold add_to_history. rewrite Hh.
  rewrite length_app. reflexivity.
Qed.

(** X4. [add_to_history] on a list of records: it returns; the new record
    is the last of the stored list; the history file holds what [json.dump]
    leaves there for the new list, which is the text of the list when that
    text can be encoded; the count is the minimum of the count plus one and
    the new length. When the count was not negative and the search text is
    blank, the new record is the first row of the table. *)
Theorem add_to_history_spec
    (s : state) (l : list json) (url status : string) :
  history s = JArr l ->
  records l ->
  exists s' : state,
    add_to_history url status s = Done s' /\
    history s' = JArr (l ++ [record url status]) /\
    disk s' =
      <[history_path := json_dump (JArr (l ++ [record url status]))]> (disk s) /\
    (Json.tame (JArr (l ++ [record url status])) = true ->
     Utf8.valid (Json.dumps (JArr (l ++ [record url status]))) = true ->
     disk s' =
       <[history_path := Json.dumps (JArr (l ++ [record url status]))]>
         (disk s)) /\
    display_count s' =
      Z.min (display_count s + 1)
        (Z.of_nat (length (l ++ [record url status]))) /\
    search_bar s' = search_bar s /\
    (0 <= display_count s ->
     str_strip (search_bar s) = EmptyString ->
     exists rows : list (option (json * json)),
       table s' = Some (JStr url, JStr status) :: rows).
Proof.
  intros Hh Hl. rewrite (add_to_history_list s l url status Hh).
  set (l' := (l ++ [record url status])%list).
  set (n := Z.min (display_count s + 1) (Z.of_nat (length l'))).
  set (s1 := set_display_count n (save_history (set_history (JArr l') s))).
  destruct (refresh_records_done s1 l' eq_refl (records_snoc l url status Hl))
    as (s' & Hr & Ht).
  destruct (saved_frame s (JArr l') n) as (F1 & F2 & F3 & F4).
  fold s1 in F1, F2, F3, F4. rewrite Hr in F1, F2, F3, F4.
  cbn [final] in F1, F2, F3, F4.
  exists s'. split; [exact Hr|]. split; [exact F1|]. split; [exact F4|].
  split; [intros Ha Hb; now rewrite F4, (dump_tame _ Ha Hb)|].
  split; [exact F2|]. split; [exact F3|].
  intros Hc Hb. rewrite Ht. subst s1. state_simpl.
  rewrite (view_blank l' _ _ Hb).
  destruct (page_snoc l (record url status) n) as [older Ep].
  { subst n l'. rewrite length_app. cbn [length]. lia. }
  fold l' in Ep. rewrite Ep. cbn [map]. eauto.
Qed.

End Growth.

(* ===================================================================== *)
(** ** The rows of the table *)
(* ===================================================================== *)

Section Rows.

Context {R : Runtime}.

(** The table after a refresh on records: one row per item of the view. *)
Lemma table_records (s : state) (l : list json) :
  history s = JArr l ->
  records l ->
  table (final (refresh_history_list s)) =
    map row_of (view l (search_bar s) (display_count s)).
Proof.
  intros Hh Hl. rewrite (refresh_records s l Hh Hl).
  destruct (view l (search_bar s) (display_count s)); reflexivity.
Qed.

(** A larger positive count shows the rows of a smaller one first. *)
Lemma page_prefix (l : list json) (n m : Z) :
  0 < n <= m -> page l n `prefix_of` page l m.
Proof.
  intros [Hn Hm]. unfold page, Py.slice_from.
  rewrite !slice_start_positive by lia.
  set (a := (length l - Z.to_nat m)%nat).
  set (b := (length l - Z.to_nat n)%nat).
  assert (Hab : (a <= b)%nat) by (subst a b; lia).
  exists (rev (take (b - a) (drop a l))).
  rewrite <- rev_app_distr. f_equal.
  rewrite <- (take_drop (b - a) (drop a l)) at 1.
  f_equal. rewrite drop_drop. f_equal. lia.
Qed.

Lemma filter_prefix (f : json -> bool) (l1 l2 : list json) :
  l1 `prefix_of` l2 -> List.filter f l1 `prefix_of` List.filter f l2.
Proof.
  intros [k ->]. exists (List.filter f k). apply List.filter_app.
Qed.

Lemma view_prefix (l : list json) (text : string) (n m : Z) :
  0 < n <= m -> view l text n `prefix_of` view l text m.
Proof.
  intros H. unfold view. destruct (PyStr.truthy (query_of text)).
  - apply filter_prefix, page_prefix, H.
  - apply page_prefix, H.
Qed.

Lemma map_prefix {A B : Type} (f : A -> B) (l1 l2 : list A) :
  l1 `prefix_of` l2 -> map f l1 `prefix_of` map f l2.
Proof. intros [k ->]. exists (map f k). apply map_app. Qed.

(** X5. [show_more_history] on a list of records, the count positive: it
    returns with the count raised by [MAX_VISIBLE] and the record list and
    the files untouched; the table shows the view for the new count; and
    the rows shown before are the first rows shown after, in the same
    order, with or without a search text. *)
Theorem show_more_history_spec (s : state) (l : list json) :
  history s = JArr l ->
  records l ->
  0 < display_count s ->
  exists s' : state,
    show_more_history s = Done s' /\
    display_count s' = display_count s + MAX_VISIBLE /\
    history s' = history s /\ disk s' = disk s /\
    table s' =
      map row_of (view l (search_bar s) (display_count s + MAX_VISIBLE)) /\
    table (final (refresh_history_list s)) `prefix_of` table s'.
Proof.
  intros Hh Hl Hc. unfold show_more_history.
  set (s1 := set_display_count (display_count s + MAX_VISIBLE) s).
  assert (Hh1 : history s1 = JArr l) by exact Hh.
  pose proof (refresh_records s1 l Hh1 Hl) as Hr.
  pose proof (table_records s1 l Hh1 Hl) as T.
  destruct (refresh_frame s1) as (F1 & F2 & _ & F4).
  rewrite Hr in F1, F2, F4, T |- *. cbn [final] in F1, F2, F4, T.
  eexists. split; [reflexivity|].
  split; [exact F2|]. split; [exact F1|]. split; [exact F4|].
  split; [exact T|].
  rewrite T, (table_records s l Hh Hl).
  apply map_prefix. subst s1. state_simpl.
  apply view_prefix. unfold MAX_VISIBLE. lia.
Qed.

Lemma length_page_positive (l : list json) (count : Z) :
  0 < count ->
  length (page l count) = Nat.min (Z.to_nat count) (length l).
Proof.
  intros H. rewrite page_positive by exact H.
  rewrite length_rev. unfold last_n. rewrite length_drop. lia.
Qed.

(** X6. On a list of records, with a positive count and a blank search
    text, the table after a refresh has as many rows as the smaller of the
    count and the number of records, and the load-more button is visible
    exactly when some record has no row. *)
Theorem table_size (s : state) (l : list json) :
  history s = JArr l ->
  records l ->
  0 < display_count s ->
  str_strip (search_bar s) = EmptyString ->
  let s' := final (refresh_history_list s) in
  length (table s') = Nat.min (Z.to_nat (display_count s)) (length l) /\
  (load_more_btn s' = true <-> (length (table s') < length l)%nat).
Proof.
  intros Hh Hl Hc Hb s'.
  assert (Ht : length (table s')
               = Nat.min (Z.to_nat (display_count s)) (length l)).
  { subst s'. rewrite (table_records s l Hh Hl), length_map.
    rewrite (view_blank l _ _ Hb). now apply length_page_positive. }
  split; [exact Ht|].
  rewrite Ht. subst s'. rewrite (load_more_records s l Hh Hl).
  pose proof (length_page_positive l (display_count s) Hc) as Hp.
  rewrite (view_blank l _ _ Hb), (query_of_blank _ Hb).
  cbn [PyStr.truthy negb]. rewrite andb_true_r.
  destruct (page l (display_count s)) as [|x p]; cbn [length] in Hp.
  - split; [discriminate | lia].
  - rewrite Z.ltb_lt. lia.
Qed.

End Rows.

(* ===================================================================== *)
(** ** The context menu *)
(* ===================================================================== *)

Section ContextMenu.

Context {R : Runtime}.

Lemma key_of_row_of (a b : json) : key_of a = key_of b -> row_of a = row_of b.
Proof.
  unfold key_of, row_of, url_of, status_of. intros H.
  injection H as -> ->. reflexivity.
Qed.

(** X7. The delete entry of the context menu. After a refresh on a list of
    records, [delete_callback] with the index of a row of the table returns
    and removes exactly one record: the first one, from the oldest on, with
    the url and status of the record behind that row. The record removed
    shows as the row the menu was opened on. *)
Theorem delete_displayed_row
    (s : state) (l : list json) (i : nat) (u st : json) :
  history s = JArr l ->
  records l ->
  table (final (refresh_history_list s)) !! i = Some (Some (u, st)) ->
  exists (s' : state) (pre : list json) (h : json) (post : list json),
    delete_callback (Z.of_nat i) (final (refresh_history_list s)) = Done s' /\
    l = (pre ++ h :: post)%list /\
    history s' = JArr (pre ++ post) /\
    row_of h = Some (u, st) /\
    Forall (fun x => key_of x <> key_of h) pre /\
    Z.of_nat (length (pre ++ post)) = Z.of_nat (length l) - 1.
Proof.
  intros Hh Hl Hrow.
  set (s1 := final (refresh_history_list s)) in *.
  destruct (refresh_frame s) as (F1 & F2 & F3 & F4). fold s1 in F1, F2, F3, F4.
  assert (Hh1 : history s1 = JArr l) by congruence.
  assert (Ht : table s1 = map row_of (view l (search_bar s1) (display_count s1))).
  { subst s1. rewrite (table_records s l Hh Hl). congruence. }
  rewrite Ht in Hrow.
  assert (Hb : 0 <= Z.of_nat i <
                 Z.of_nat (length (view l (search_bar s1) (display_count s1)))).
  { apply lookup_lt_Some in Hrow. rewrite length_map in Hrow. lia. }
  destruct (delete_in_bounds s1 l (Z.of_nat i) Hh1 Hl Hb)
    as (to_del & pre & h & post & s' & Hd & El & Hk & Hpre & Hdel & Es').
  rewrite Nat2Z.id in Hd.
  rewrite list_lookup_fmap, Hd in Hrow. cbn in Hrow.
  exists s', pre, h, post.
  split; [exact Hdel|]. split; [exact El|].
  split.
  { rewrite Es'. apply saved_frame. }
  split; [rewrite (key_of_row_of h to_del Hk); congruence|].
  split.
  { eapply Forall_impl; [exact Hpre|]. intros x Hx. congruence. }
  rewrite El, !length_app. cbn [length]. lia.
Qed.

(** X14. With a search text in the bar, [delete_callback] removes a record
    that passes the search: on a list of records, for an index in the
    bounds of the view, the record removed has the url and the status of
    the record at that index of the view, and so matches the stripped and
    lowered search text as that one does. *)
Theorem delete_removes_a_match (s : state) (l : list json) (view_idx : Z) :
  history s = JArr l ->
  records l ->
  str_strip (search_bar s) <> EmptyString ->
  0 <= view_idx <
    Z.of_nat (length (view l (search_bar s) (display_count s))) ->
  exists (s' : state) (pre : list json) (h : json) (post : list json),
    delete_callback view_idx s = Done s' /\
    l = (pre ++ h :: post)%list /\
    history s' = JArr (pre ++ post) /\
    str_lower (str_strip (search_bar s)) <> EmptyString /\
    matches (str_lower (str_strip (search_bar s))) h = true.
Proof.
  intros Hh Hl Hq Hb.
  destruct (delete_in_bounds s l view_idx Hh Hl Hb)
    as (to_del & pre & h & post & s' & Hd & El & Hk & _ & Hdel & Es').
  exists s', pre, h, post.
  split; [exact Hdel|]. split; [exact El|]. split.
  { rewrite Es'. apply saved_frame. }
  assert (Hne : query_of (search_bar s) <> EmptyString)
    by (intros E; apply query_of_empty_iff in E; contradiction).
  split; [exact Hne|].
  assert (Ht : PyStr.truthy (query_of (search_bar s)) = true).
  { destruct (PyStr.truthy (query_of (search_bar s))) eqn:E; [reflexivity|].
    apply truthy_false_iff in E. contradiction. }
  apply list_elem_of_lookup_2, list_elem_of_In in Hd.
  unfold view in Hd. rewrite Ht in Hd.
  apply filter_In in Hd as [_ Hm].
  unfold matches in *. unfold url_of, status_of in *.
  unfold key_of in Hk. injection Hk as -> ->. exact Hm.
Qed.

End ContextMenu.

(* ===================================================================== *)
(** ** The case of the search text, and what the filter keeps *)
(* ===================================================================== *)

Section SearchCase.

Context {R : Runtime}.

(** X9. The search ignores the case of the search text: two texts with
    the same lowered form give the same view, and the same refresh up to
    the text left in the search bar. *)
Theorem search_text_case_insensitive
    (t1 t2 : string) (h : json) (count : Z) (s : state) :
  PyStr.lower_ascii t1 = PyStr.lower_ascii t2 ->
  show_items h t1 count = show_items h t2 count /\
  refresh_history_list (set_search_bar t1 s) =
    with_search_bar t1 (refresh_history_list (set_search_bar t2 s)).
Proof.
  intros H. pose proof (query_of_lower_ascii t1 t2 H) as Hq.
  split; [apply show_items_query_of, Hq | apply refresh_query_of, Hq].
Qed.

(** X8. The filter leaves nothing out. On a list of records, a record of
    the page is in the view as soon as the stripped and lowered search text
    is a substring of its lowered url or of its lowered status; with a
    blank search text the view is the whole page. *)
Theorem show_items_filter_complete
    (l : list json) (text : string) (count : Z) (item : json) :
  records l ->
  In item (page l count) ->
  PyStr.substring_of (str_lower (str_strip text)) (str_lower (url_of item)) \/
  PyStr.substring_of (str_lower (str_strip text))
    (str_lower (status_of item)) ->
  exists items : list json,
    show_items (JArr l) text count = Ok items /\
    In item items /\
    (str_strip text = EmptyString -> items = page l count).
Proof.
  intros Hl Hin Hm. exists (view l text count).
  split; [apply show_items_records, Hl|].
  unfold view. fold (query_of text) in Hm.
  destruct (PyStr.truthy (query_of text)) eqn:Hq.
  - split.
    + apply filter_In. split; [exact Hin|]. now apply matches_spec.
    + intros Hb. apply query_of_empty_iff in Hb. rewrite Hb in Hq.
      discriminate.
  - split; [exact Hin | reflexivity].
Qed.

End SearchCase.

(* ===================================================================== *)
(** ** An export that fails *)
(* ===================================================================== *)

Section ExportFailure.

Context {R : Runtime}.

(** X10. [export_history] never lets an exception out. With no file chosen
    it does nothing. When an item of the history is not a dict and the
    items before it are records whose texts can be encoded, the file holds
    the blocks of the records before that item and nothing else, the
    warning box is shown, and the history is left as it was. *)
Theorem export_history_stops_at_bad_item
    (s : state) (l1 l2 : list json) (bad : json) (path : string) :
  history s = JArr (l1 ++ bad :: l2) ->
  records l1 ->
  Forall (fun item => writable item = true) l1 ->
  (forall o, bad <> JObj o) ->
  path <> EmptyString ->
  export_history "" s = (s, None) /\
  export_history path s =
    (set_disk (<[realpath path := spec_export l1]> (disk s)) s,
     Some Warning) /\
  history (fst (export_history path s)) = history s.
Proof.
  intros Hh Hl Hw Hbad Hp. split; [reflexivity|].
  rewrite (export_stops s l1 l2 bad path Hh Hl Hw (or_intror Hbad) Hp).
  split; reflexivity.
Qed.

End ExportFailure.

Section MoreExamples.

#[local] Existing Instance reference_runtime.

Lemma add_to_history_spec_witness :
  exists s' : state,
    add_to_history "http://x" "Complete!"
      (mkState (JArr [record "a" "ok"]) 15 "" [] false true ∅) = Done s' /\
    history s' = JArr [record "a" "ok"; record "http://x" "Complete!"].
Proof.
  destruct (add_to_history_spec
    (mkState (JArr [record "a" "ok"]) 15 "" [] false true ∅)
    [record "a" "ok"] "http://x" "Complete!"
    eq_refl ltac:(repeat constructor)) as (s' & H1 & H2 & _).
  exists s'. split; [exact H1 | exact H2].
Defined.

Lemma show_more_history_spec_witness :
  exists s' : state,
    show_more_history
      (mkState (JArr [record "a" "ok"; record "b" "no"]) 1 "" [] false true ∅)
      = Done s' /\
    display_count s' = 1 + MAX_VISIBLE.
Proof.
  destruct (show_more_history_spec
    (mkState (JArr [record "a" "ok"; record "b" "no"]) 1 "" [] false true ∅)
    [record "a" "ok"; record "b" "no"]
    eq_refl ltac:(repeat constructor) ltac:(cbn; lia)) as (s' & H1 & H2 & _).
  exists s'. split; [exact H1 | exact H2].
Defined.

Lemma table_size_witness :
  length (table (final (refresh_history_list
    (mkState (JArr [record "a" "ok"; record "b" "no"; record "c" "ok"])
       2 " " [] false true ∅)))) = 2%nat.
Proof.
  exact (proj1 (table_size
    (mkState (JArr [record "a" "ok"; record "b" "no"; record "c" "ok"])
       2 " " [] false true ∅)
    [record "a" "ok"; record "b" "no"; record "c" "ok"]
    eq_refl ltac:(repeat constructor) ltac:(cbn; lia) eq_refl)).
Defined.

Lemma delete_displayed_row_witness :
  exists (s' : state) (pre : list json) (h : json) (post : list json),
    delete_callback (Z.of_nat 0)
      (final (refresh_history_list
         (mkState (JArr [record "a" "ok"; record "b" "no"]) 15 "" []
            false true ∅))) = Done s' /\
    [record "a" "ok"; record "b" "no"] = (pre ++ h :: post)%list /\
    history s' = JArr (pre ++ post) /\
    row_of h = Some (JStr "b", JStr "no") /\
    Forall (fun x => key_of x <> key_of h) pre /\
    Z.of_nat (length (pre ++ post)) = Z.of_nat 2 - 1.
Proof.
  apply (delete_displayed_row
    (mkState (JArr [record "a" "ok"; record "b" "no"]) 15 "" [] false true ∅)
    [record "a" "ok"; record "b" "no"] 0 (JStr "b") (JStr "no")
    eq_refl ltac:(repeat constructor) eq_refl).
Defined.

Lemma delete_removes_a_match_witness :
  exists (s' : state) (pre : list json) (h : json) (post : list json),
    delete_callback 0
      (mkState (JArr [record "a" "ok"; record "b" "no"; record "c" "ok"])
         15 "OK" [] false true ∅) = Done s' /\
    [record "a" "ok"; record "b" "no"; record "c" "ok"]
      = (pre ++ h :: post)%list /\
    history s' = JArr (pre ++ post) /\
    str_lower (str_strip "OK") <> EmptyString /\
    matches (str_lower (str_strip "OK")) h = true.
Proof.
  apply (delete_removes_a_match
    (mkState (JArr [record "a" "ok"; record "b" "no"; record "c" "ok"])
       15 "OK" [] false true ∅)
    [record "a" "ok"; record "b" "no"; record "c" "ok"] 0
    eq_refl ltac:(repeat constructor)).
  - discriminate.
  - split; [lia | reflexivity].
Defined.

Lemma search_text_case_insensitive_witness :
  show_items (JArr [record "http://X/a" "Complete!"]) "COMPLETE" 15 =
  show_items (JArr [record "http://X/a" "Complete!"]) "complete" 15.
Proof.
  exact (proj1 (search_text_case_insensitive "COMPLETE" "complete"
    (JArr [record "http://X/a" "Complete!"]) 15
    (mkState (JArr []) 15 "" [] false true ∅) eq_refl)).
Defined.

Lemma show_items_filter_complete_witness :
  exists items : list json,
    show_items (JArr [record "http://x/A" "Complete!"; record "b" "no"])
      " X/A " 15 = Ok items /\
    In (record "http://x/A" "Complete!") items.
Proof.
  destruct (show_items_filter_complete
    [record "http://x/A" "Complete!"; record "b" "no"] " X/A " 15
    (record "http://x/A" "Complete!")
    ltac:(repeat constructor)
    ltac:(right; left; reflexivity)
    ltac:(left; apply contains_spec; reflexivity)) as (items & H1 & H2 & _).
  exists items. split; [exact H1 | exact H2].
Defined.

Lemma export_history_stops_at_bad_item_witness :
  export_history "out.txt"
    (mkState (JArr [record "a" "ok"; JInt 1; record "b" "no"])
       15 "" [] false true ∅) =
  (set_disk (<[realpath "out.txt" := spec_export [record "a" "ok"]]> ∅)
     (mkState (JArr [record "a" "ok"; JInt 1; record "b" "no"])
        15 "" [] false true ∅),
   Some Warning).
Proof.
  refine (proj1 (proj2 (export_history_stops_at_bad_item
    (mkState (JArr [record "a" "ok"; JInt 1; record "b" "no"])
       15 "" [] false true ∅)
    [record "a" "ok"] [record "b" "no"] (JInt 1) "out.txt" eq_refl _ _ _ _))).
  - repeat constructor.
  - repeat constructor.
  - discriminate.
  - discriminate.
Defined.

End MoreExamples.

(* ===================================================================== *)
(** ** The states the widget reaches *)
(* ===================================================================== *)

Section Reached.

Context {R : Runtime}.

Lemma count_ok_refresh (s : state) :
  count_ok s -> count_ok (final (refresh_history_list s)).
Proof.
  destruct (refresh_frame s) as (F1 & F2 & _). unfold count_ok.
  now rewrite F1, F2.
Qed.

Lemma load_history_count (s : state) :
  display_count (final (load_history s)) = MAX_VISIBLE.
Proof.
  unfold load_history.
  match goal with
  | |- context [refresh_history_list ?s1] =>
      destruct (refresh_frame s1) as (_ & F2 & _); rewrite F2
  end.
  reflexivity.
Qed.

(** The view of the empty list is empty. *)
Lemma show_items_nil (text : string) (count : Z) :
  show_items (JArr []) text count = Ok [].
Proof.
  rewrite show_items_records by constructor.
  unfold view. rewrite page_nil. now destruct (PyStr.truthy _).
Qed.

Lemma count_ok_delete (row : Z) (s : state) :
  count_ok s -> count_ok (final (delete_callback row s)).
Proof.
  intros [Hc Hz]. unfold delete_callback.
  destruct (show_items (history s) (search_bar s) (display_count s))
    as [items|e] eqn:Ev; [|split; assumption].
  destruct ((0 <=? row) && (row <? Z.of_nat (length items))) eqn:Hb;
    [|split; assumption].
  destruct (items !! Z.to_nat row) as [to_del|]; [|split; assumption].
  destruct (try! seq := Py.iter (history s) in pop_first_match to_del seq)
    as [l|e]; [|split; assumption].
  apply count_ok_refresh. unfold save_history. split; state_simpl; [lia|].
  intros H0.
  destruct (Z.min_spec (display_count s) (Z.of_nat (length l)))
    as [[_ Em] | [_ Em]]; rewrite Em in H0.
  - rewrite H0, (Hz H0), show_items_nil in Ev. injection Ev as <-.
    cbn [length] in Hb. apply andb_true_iff in Hb as [H1 H2].
    apply Z.leb_le in H1. apply Z.ltb_lt in H2. lia.
  - destruct l; [reflexivity | discriminate].
Qed.

Lemma export_history_frame (path : string) (s : state) :
  history (fst (export_history path s)) = history s /\
  display_count (fst (export_history path s)) = display_count s /\
  search_bar (fst (export_history path s)) = search_bar s.
Proof.
  unfold export_history. destruct (negb (PyStr.truthy path)); [auto|].
  destruct (Py.iter (history s)) as [items|e]; [|auto].
  destruct (write_blocks items "") as [text []]; auto.
Qed.

(** Every method keeps the count in its range, whether it returns or
    raises. *)
Lemma count_ok_step (a : action) (s : state) :
  count_ok s -> count_ok (final (run a s)).
Proof.
  intros Hs. pose proof Hs as [Hc Hz].
  destruct a as [| |reply|row|url status|text|path]; cbn [run].
  - split; rewrite load_history_count; unfold MAX_VISIBLE; lia.
  - apply count_ok_refresh. split; state_simpl; unfold MAX_VISIBLE; lia.
  - destruct reply; [|exact Hs]. apply count_ok_refresh.
    split; [exact Hc | reflexivity].
  - now apply count_ok_delete.
  - unfold add_to_history. destruct (history s); try exact Hs.
    apply count_ok_refresh. unfold save_history. split; state_simpl; lia.
  - apply count_ok_refresh. exact Hs.
  - cbn [final]. destruct (export_history_frame path s) as (F1 & F2 & _).
    unfold count_ok. now rewrite F1, F2.
Qed.

Lemma count_ok_init (d : gmap string string) : count_ok (final (init d)).
Proof.
  unfold init. split; rewrite load_history_count; unfold MAX_VISIBLE; lia.
Qed.

(** In every state the widget reaches, the count is not negative, and is
    0 only when the list is empty. *)
Lemma count_ok_reached (d : gmap string string) (acts : list action) :
  count_ok (run_through acts (final (init d))).
Proof.
  generalize (count_ok_init d). generalize (final (init d)).
  induction acts as [|a acts IH]; intros s Hs; [exact Hs|].
  cbn [run_through]. apply IH, count_ok_step, Hs.
Qed.

(** A run that is not stopped by an exception ends where the run that
    lives on ends. *)
Lemma run_all_through (acts : list action) (s s' : state) :
  run_all acts s = Done s' -> run_through acts s = s'.
Proof.
  revert s. induction acts as [|a acts IH]; intros s; cbn [run_all run_through].
  - now intros [= ->].
  - destruct (run a s) as [s1|e s1]; [apply IH | discriminate].
Qed.

(** X1. The count stays in its range. Whatever the files hold when the
    widget is built, and whatever methods are then called, returning or
    raising: [display_count] is not negative, and it is 0 only when the
    history is the empty list. The slice [history[-0:]], which is the whole
    list, is therefore taken of the empty list only. *)
Theorem display_count_in_range
    (d : gmap string string) (acts : list action) :
  let s := run_through acts (final (init d)) in
  0 <= display_count s /\
  (display_count s = 0 -> history s = JArr []) /\
  (display_count s = 0 ->
   forall text : string,
     show_items (history s) text (display_count s) = Ok []).
Proof.
  intros s. destruct (count_ok_reached d acts) as [Hc Hz]. fold s in Hc, Hz.
  split; [exact Hc|]. split; [exact Hz|].
  intros H0 text. rewrite (Hz H0). apply show_items_nil.
Qed.





End Reached.

(* ===================================================================== *)
(** ** Sessions *)
(* ===================================================================== *)

Section Session.

Context {R : Runtime}.

Lemma session_with_ext (ps : list (string * string)) (s s' : state) :
  history s' = history s ->
  display_count s' = display_count s ->
  disk s' = disk s ->
  session_with ps s -> session_with ps s'.
Proof.
  intros Hh Hc Hd (H1 & H2 & H3 & H4).
  unfold session_with. rewrite Hh, Hc, Hd. auto.
Qed.

(** A refresh at the end of a method keeps the session going. *)
Lemma refresh_in_session (ps : list (string * string)) (s : state) :
  session_with ps s ->
  exists s' : state, refresh_history_list s = Done s' /\ session_with ps s'.
Proof.
  intros Hs. pose proof Hs as (H1 & _).
  destruct (refresh_records_done s (plain ps) H1 (records_plain ps))
    as (s' & Hr & _).
  destruct (refresh_frame s) as (F1 & F2 & _ & F4).
  rewrite Hr in F1, F2, F4. cbn [final] in F1, F2, F4.
  exists s'. split; [exact Hr|].
  apply (session_with_ext ps s s' F1 F2 F4 Hs).
Qed.

Lemma plain_without (ps : list (string * string))
    (pre : list json) (h : json) (post : list json) :
  plain ps = (pre ++ h :: post)%list ->
  exists qs : list (string * string),
    (pre ++ post)%list = plain qs /\
    forall P : string * string -> Prop, Forall P ps -> Forall P qs.
Proof.
  unfold plain. intros H.
  apply map_eq_app in H as (l1 & l2 & -> & <- & H2).
  apply map_eq_cons in H2 as (p & l3 & -> & _ & <-).
  exists (l1 ++ l3)%list. split; [now rewrite map_app|].
  intros P HP. apply Forall_app in HP as [HP1 HP2].
  apply Forall_cons in HP2 as [_ HP2]. apply Forall_app. auto.
Qed.

Lemma plain_nil_inv (qs : list (string * string)) :
  length (plain qs) = 0%nat -> qs = [].
Proof. destruct qs; [reflexivity | discriminate]. Qed.

Lemma plain_inj (ps qs : list (string * string)) :
  plain ps = plain qs -> ps = qs.
Proof.
  revert qs. induction ps as [|[u st] ps IH]; intros [|[u' st'] qs] H;
    try discriminate; [reflexivity|].
  cbn [plain map fst snd] in H. injection H as -> -> H.
  f_equal. apply IH, H.
Qed.

(** [load_history] starts a session when the history file is absent or
    holds the text a session wrote. *)
Lemma load_in_session (s : state) :
  (disk s !! history_path = None \/
   exists qs : list (string * string),
     disk s !! history_path = Some (Json.dumps (JArr (plain qs))) /\
     Forall (fun p => writable_pair p = true) qs) ->
  exists s' : state, load_history s = Done s' /\ in_written_session s'.
Proof.
  intros [Hn | (qs & Hq & Hw)].
  - destruct (load_history_recovers s (or_introl Hn))
      as (s' & Hl & H1 & H2 & _ & _ & _ & _ & H4).
    exists s'. split; [exact Hl|]. exists []. split; [|constructor].
    unfold session_with. rewrite H1, H2, H4. unfold MAX_VISIBLE.
    repeat split; auto; lia.
  - destruct (load_history_records s qs Hq Hw)
      as (s' & Hl & H1 & H2 & _ & H4 & _).
    exists s'. split; [exact Hl|]. exists qs. split; [|exact Hw].
    unfold session_with. rewrite H1, H2, H4. unfold MAX_VISIBLE.
    repeat split; auto; lia.
Qed.

(** After [save_history] and a new count, a refresh keeps the session
    going with the list that was saved. *)
Lemma saved_in_session (qs : list (string * string)) (n : Z) (s : state) :
  Forall (fun p => writable_pair p = true) qs ->
  0 <= n ->
  (n = 0 -> qs = []) ->
  exists s' : state,
    refresh_history_list
      (set_display_count n (save_history (set_history (JArr (plain qs)) s)))
      = Done s' /\
    in_written_session s'.
Proof.
  intros Hw Hn Hz.
  destruct (refresh_in_session qs
    (set_display_count n (save_history (set_history (JArr (plain qs)) s))))
    as (s' & Hr & Hs).
  - rewrite (save_history_records (set_history (JArr (plain qs)) s) qs
               eq_refl Hw).
    unfold session_with. state_simpl. rewrite lookup_insert_eq. auto.
  - exists s'. split; [exact Hr|]. exists qs. auto.
Qed.

(** One action keeps the session going: it returns, in a session state. *)
Lemma session_step (a : action) (s : state) :
  in_written_session s ->
  ordinary a ->
  exists s' : state, run a s = Done s' /\ in_written_session s'.
Proof.
  intros Hs Ha. pose proof Hs as (ps & (Hh & Hc & Hz & Hd) & Hw).
  destruct a as [| |reply|row|url status|text|path]; cbn [run].
  - (* Load *)
    apply load_in_session. destruct Hd as [[Hn _] | Hf]; eauto.
  - (* ShowMore *)
    unfold show_more_history.
    destruct (refresh_in_session ps
      (set_display_count (display_count s + MAX_VISIBLE) s)) as (s' & Hr & I).
    + unfold session_with. state_simpl. unfold MAX_VISIBLE.
      repeat split; auto; lia.
    + exists s'. split; [exact Hr|]. exists ps. auto.
  - (* Clear *)
    destruct reply; cbn [clear_history]; [|eauto].
    destruct (saved_in_session [] (display_count s) s) as (s' & Hr & I);
      [constructor | exact Hc | reflexivity |].
    exists s'. split; [|exact I].
    rewrite <- Hr. destruct s; reflexivity.
  - (* Delete *)
    destruct (decide (0 <= row <
        Z.of_nat (length (view (plain ps) (search_bar s) (display_count s)))))
      as [Hb|Hb].
    + destruct (delete_in_bounds s (plain ps) row Hh (records_plain ps) Hb)
        as (to_del & pre & h & post & s' & _ & El & _ & _ & Hdel & Es').
      destruct (plain_without ps pre h post El) as (qs & Eq & Hqs).
      rewrite Hdel, Es', Eq.
      destruct (saved_in_session qs
        (Z.min (display_count s) (Z.of_nat (length (plain qs)))) s)
        as (s2 & Hr & I2).
      * apply Hqs, Hw.
      * lia.
      * intros H0. apply plain_nil_inv.
        destruct (Z.min_spec (display_count s) (Z.of_nat (length (plain qs))))
          as [[_ Em] | [_ Em]]; [|lia].
        rewrite Em in H0. specialize (Hz H0). subst ps.
        destruct pre; discriminate.
      * rewrite Hr. cbn [final]. eauto.
    + rewrite (delete_out_of_bounds s (plain ps) row Hh (records_plain ps) Hb).
      eauto.
  - (* Add *)
    destruct Ha as [Hu Hst].
    rewrite (add_to_history_list s (plain ps) url status Hh).
    change (plain ps ++ [record url status])%list
      with (plain ps ++ plain [(url, status)])%list.
    unfold plain at 1 2 3 4. rewrite <- map_app. fold (plain (ps ++ [(url, status)])).
    apply saved_in_session.
    + apply Forall_app. split; [exact Hw|]. constructor; [|constructor].
      unfold writable_pair. cbn [fst snd]. now rewrite Hu, Hst.
    + unfold plain. rewrite length_map, length_app. cbn [length]. lia.
    + unfold plain. rewrite length_map, length_app. cbn [length]. lia.
  - (* Search *)
    unfold search_text_changed.
    destruct (refresh_in_session ps (set_search_bar text s)) as (s' & Hr & I).
    + unfold session_with. state_simpl. auto.
    + exists s'. split; [exact Hr|]. exists ps. auto.
  - (* ExportTo *)
    cbn [ordinary] in Ha.
    eexists. split; [reflexivity|].
    unfold export_history.
    destruct (negb (PyStr.truthy path)); [exact Hs|].
    rewrite Hh. cbn [Py.iter].
    destruct (write_blocks (plain ps) "") as [text []]; cbn [fst];
      exists ps; (split; [|exact Hw]); unfold session_with; state_simpl;
      rewrite lookup_insert_ne by (intros E; apply Ha; now rewrite E); auto.
Qed.

Lemma session_steps (acts : list action) (s : state) :
  in_written_session s ->
  Forall ordinary acts ->
  exists s' : state, run_all acts s = Done s' /\ in_written_session s'.
Proof.
  intros Hs Ha. revert s Hs.
  induction Ha as [|a acts Ha Hacts IH]; intros s Hs; cbn [run_all]; [eauto|].
  destruct (session_step a s Hs Ha) as (s1 & -> & H1). apply IH, H1.
Qed.

(** X11. A session never raises. Start the widget with the history file
    absent, or holding the text a session wrote for records that can be
    encoded; then any run of loads, load-mores, clears, deletes, adds of
    texts that can be encoded, searches and exports to another file than
    the history file returns at every step, and ends in a state where the
    history is a list of records with both fields, the count is not
    negative and is 0 only with an empty list, and the history file, when
    present, holds the text of the list. *)
Theorem session_never_raises
    (d : gmap string string) (acts : list action) :
  (d !! history_path = None \/
   exists qs : list (string * string),
     d !! history_path = Some (Json.dumps (JArr (plain qs))) /\
     Forall (fun p => writable_pair p = true) qs) ->
  Forall ordinary acts ->
  exists s0 s' : state,
    init d = Done s0 /\ run_all acts s0 = Done s' /\
    in_session s' /\ in_written_session s'.
Proof.
  intros Hd Ha. unfold init.
  destruct (load_in_session
              (mkState (JArr []) MAX_VISIBLE "" [] false true d) Hd)
    as (s0 & E0 & I0).
  destruct (session_steps acts s0 I0 Ha) as (s' & E & I').
  exists s0, s'. split; [exact E0|]. split; [exact E|].
  split; [|exact I']. destruct I' as (ps & Hs & _). now exists ps.
Qed.

(** X12. In a session the count 0 is harmless: with a blank search text the
    view is exactly the newest records, as many as the smaller of the count
    and the number of records, newest first; and the history file, when
    present, holds a text that parses to the stored list, which every
    runtime reads so when the text is UTF-8. *)
Theorem in_session_view (s : state) :
  in_session s ->
  str_strip (search_bar s) = EmptyString ->
  exists l : list json,
    history s = JArr l /\
    show_items (history s) (search_bar s) (display_count s) =
      Ok (rev (last_n (Z.to_nat (display_count s)) l)) /\
    length (last_n (Z.to_nat (display_count s)) l) =
      Nat.min (Z.to_nat (display_count s)) (length l) /\
    (forall content : string,
       disk s !! history_path = Some content ->
       Json.parse content = Some (history s) /\
       (Utf8.valid content = true -> json_loads content = Some (history s))).
Proof.
  intros (ps & Hh & Hc & Hz & Hd) Hb. exists (plain ps).
  split; [exact Hh|]. split; [|split].
  - rewrite Hh, (show_items_records _ _ _ (records_plain ps)).
    rewrite (view_blank _ _ _ Hb). f_equal.
    destruct (Z.eq_dec (display_count s) 0) as [E0|Hne].
    + rewrite E0, (Hz E0). reflexivity.
    + apply page_positive. lia.
  - unfold last_n. rewrite length_drop. lia.
  - intros content Hf. destruct Hd as [[Hn _] | Hs]; [congruence|].
    rewrite Hs in Hf. injection Hf as <-.
    rewrite Hh. split; [apply parse_dumps_records|].
    intros Hv. apply loads_tame;
      [exact Hv | apply parse_dumps_records | apply tame_records].
Qed.

(** X13. Starting without a usable history file. When the file is absent,
    or its content is not read, [__init__] returns with an empty record
    list, the count at [MAX_VISIBLE], an empty table, the empty-state label
    shown and the load-more button hidden; the files are left as they are,
    an unreadable history file included. *)
Theorem init_without_usable_file (d : gmap string string) :
  (d !! history_path = None \/
   exists content : string,
     d !! history_path = Some content /\ json_loads content = None) ->
  exists s' : state,
    init d = Done s' /\
    history s' = JArr [] /\ display_count s' = MAX_VISIBLE /\
    table s' = [] /\ empty_label s' = true /\ load_more_btn s' = false /\
    disk s' = d.
Proof.
  intros H. unfold init.
  destruct (load_history_recovers
    (mkState (JArr []) MAX_VISIBLE "" [] false true d) H)
    as (s' & Hl & H1 & H2 & H3 & H4 & H5 & _ & H7).
  exists s'. auto 10.
Qed.

End Session.

Section SessionExamples.

#[local] Existing Instance reference_runtime.

Lemma display_count_in_range_example :
  display_count
    (run_through [Add "a" "ok"; Delete 0; Search "x"; Delete 0]
       (final (init ∅))) = 0.
Proof. vm_compute. reflexivity. Qed.




Lemma session_never_raises_witness :
  exists s0 s' : state,
    init ∅ = Done s0 /\
    run_all [Add "a" "ok"; Add "b" "no"; Search "A"; Delete 0; ShowMore;
             ExportTo "out.txt"; Clear true; Load] s0 = Done s' /\
    in_session s' /\ in_written_session s'.
Proof.
  apply (session_never_raises ∅
    [Add "a" "ok"; Add "b" "no"; Search "A"; Delete 0; ShowMore;
     ExportTo "out.txt"; Clear true; Load]).
  - left. reflexivity.
  - repeat constructor. discriminate.
Defined.

Lemma in_session_view_witness :
  exists l : list json,
    JArr (plain [("a", "ok"); ("b", "no")]) = JArr l /\
    show_items (JArr (plain [("a", "ok"); ("b", "no")])) " " 1 =
      Ok (rev (last_n (Z.to_nat 1) l)).
Proof.
  destruct (in_session_view
    (mkState (JArr (plain [("a", "ok"); ("b", "no")])) 1 " " [] false true
       (<[history_path := Json.dumps (JArr (plain [("a", "ok"); ("b", "no")]))]> ∅)))
    as (l & H1 & H2 & _).
  - exists [("a", "ok"); ("b", "no")]. unfold session_with. state_simpl.
    split; [reflexivity|]. split; [lia|]. split; [discriminate|].
    right. apply lookup_insert_eq.
  - reflexivity.
  - exists l. split; [exact H1 | exact H2].
Defined.

Lemma init_without_usable_file_witness :
  exists s' : state,
    init (<[history_path := "not json"]> ∅) = Done s' /\
    history s' = JArr [] /\ display_count s' = MAX_VISIBLE /\
    table s' = [] /\ empty_label s' = true /\ load_more_btn s' = false /\
    disk s' = <[history_path := "not json"]> ∅.
Proof.
  refine (init_without_usable_file (<[history_path := "not json"]> ∅) _).
  right. exists "not json". split; vm_compute; reflexivity.
Defined.

End SessionExamples.
